(** * Media tracker: article acquisition, date resolution and routing

    A shallow embedding of [Article_extraction_with_pagination.py]: the
    date helpers, the article fetcher, the paginated search and the
    tracker loop, with the properties of their decision logic.

    Conventions of the embedding.
    - Text is [string] (one character per byte); [lower] and [strip] are the
      ASCII parts of Python's [str.lower] and [str.strip].
    - Python's [None] is [None]; truthiness of a value used in an [if] is
      written out ([truthy], [truthy_opt]).
    - Everything the script obtains from outside (network, clock, the
      third-party parsers) is a field of the class [Externals]; calls that
      touch the network thread a world through. *)

From Stdlib Require Import ZArith Ascii String.
From stdpp Require Import base list gmap strings.

Local Open Scope Z_scope.

#[local] Set Warnings "-clear-no-such-hyp".

(** ** Python strings *)

Module PyStr.

(** [bool(s)] for a string. *)
Definition truthy (s : string) : bool :=
  match s with EmptyString => false | String _ _ => true end.

(** [bool(x)] for a value that is a string or [None]. *)
Definition truthy_opt (o : option string) : bool :=
  match o with Some s => truthy s | None => false end.

(** [x or y] on strings-or-[None]. *)
Definition or_else (x y : option string) : option string :=
  if truthy_opt x then x else y.

Definition lower_char (c : ascii) : ascii :=
  let n := nat_of_ascii c in
  if (Nat.leb 65 n && Nat.leb n 90)%bool then ascii_of_nat (n + 32) else c.

(** [s.lower()]. *)
Fixpoint lower (s : string) : string :=
  match s with
  | EmptyString => EmptyString
  | String c s' => String (lower_char c) (lower s')
  end.

(** [p in s]: [p] occurs in [s] as a contiguous substring. *)
Fixpoint contains (p s : string) : bool :=
  (String.prefix p s ||
   match s with
   | EmptyString => false
   | String _ s' => contains p s'
   end)%bool.

(** [sep.join(parts)]. *)
Fixpoint join (sep : string) (parts : list string) : string :=
  match parts with
  | [] => ""
  | [p] => p
  | p :: rest => p +:+ sep +:+ join sep rest
  end.

(** [s[:n]]. *)
Fixpoint take (n : nat) (s : string) : string :=
  match n, s with
  | S n', String c s' => String c (take n' s')
  | _, _ => ""
  end.

Definition is_space (c : ascii) : bool :=
  let n := nat_of_ascii c in
  ((Nat.leb 9 n && Nat.leb n 13) || (Nat.leb 28 n && Nat.leb n 32))%bool.

Fixpoint lstrip (s : string) : string :=
  match s with
  | String c s' => if is_space c then lstrip s' else s
  | EmptyString => EmptyString
  end.

Fixpoint rstrip (s : string) : string :=
  match s with
  | EmptyString => EmptyString
  | String c s' =>
      match rstrip s' with
      | EmptyString => if is_space c then EmptyString else String c EmptyString
      | r => String c r
      end
  end.

(** [s.strip()]. *)
Definition strip (s : string) : string := rstrip (lstrip s).

End PyStr.

(** ** Dates *)

(** A [datetime.datetime]: wall-clock fields and, when the value is
    timezone-aware, the UTC offset of its [tzinfo] in minutes. *)
Record datetime := mk_datetime {
  year : Z; month : Z; day : Z;
  hour : Z; minute : Z; second : Z;
  tzinfo : option Z
}.

(** A [datetime.date]. *)
Record date := mk_date { d_year : Z; d_month : Z; d_day : Z }.

(** [dt.date()]. *)
Definition date_of (dt : datetime) : date :=
  mk_date (year dt) (month dt) (day dt).

(** [a <= b] on dates. *)
Definition date_le (a b : date) : bool :=
  (d_year a <? d_year b)
  || ((d_year a =? d_year b)
      && ((d_month a <? d_month b)
          || ((d_month a =? d_month b) && (d_day a <=? d_day b)))).

(** [start <= d <= end]. *)
Definition in_range (start_date end_date d : date) : bool :=
  date_le start_date d && date_le d end_date.

Definition digit (n : Z) : ascii := ascii_of_nat (48 + Z.to_nat (n mod 10)).

Definition two_digits (n : Z) : string :=
  String (digit (n / 10)) (String (digit n) "").

Definition four_digits (n : Z) : string :=
  String (digit (n / 1000)) (String (digit (n / 100)) (two_digits n)).

(** The year as [%Y] prints it on the C library the script runs on:
    in decimal without padding, so with one to four digits for the years
    1 to 9999 a [datetime] has. *)
Definition year_digits (n : Z) : string :=
  if n <? 10 then String (digit n) ""
  else if n <? 100 then two_digits n
  else if n <? 1000 then String (digit (n / 100)) (two_digits n)
  else four_digits n.

(** [dt.strftime('%Y-%m-%d')]: the year unpadded, month and day with two
    digits each. *)
Definition strftime_ymd (dt : datetime) : string :=
  year_digits (year dt) +:+ "-" +:+ two_digits (month dt) +:+ "-"
    +:+ two_digits (day dt).

(** [_make_naive]: a timezone-aware value loses its [tzinfo]; the
    wall-clock fields stay. *)
Definition _make_naive (dt : datetime) : datetime :=
  match tzinfo dt with
  | Some _ =>
      mk_datetime (year dt) (month dt) (day dt)
                  (hour dt) (minute dt) (second dt) None
  | None => dt
  end.

(** [_make_naive] applied to a value that may be [None]. *)
Definition _make_naive_opt (o : option datetime) : option datetime :=
  _make_naive <$> o.

(** ** Classification *)

(** The taxonomy, in its declared order (a Python dict iterates in
    insertion order). *)
Definition CATEGORY_KEYWORDS : list (string * list string) :=
  [ ("Press Release", ["press release"; "announced"; "unveiled"; "launched"]);
    ("Jury", ["jury"; "judge"; "jury member"; "jury panel"; "jury appointment"]);
    ("Interviews",
      ["interview with"; "exclusive interview"; "spoke to"; "conversation with"]);
    ("Speaking Opportunity",
      ["keynote"; "fireside chat"; "panel discussion"; "session speaker";
       "speaker at"]);
    ("Article Commentary",
      ["quoted"; "commented"; "shared"; "according to"; "said"; "opinion"]);
    ("Brief Mentions",
      ["congratulations"; "appointed"; "wins"; "promotion"; "award";
       "linkedin update"]) ].

(** The inner loop [for keyword in keywords: if keyword in text]: does it
    reach the [return]? *)
Fixpoint keyword_loop (keywords : list string) (text : string) : bool :=
  match keywords with
  | [] => false
  | keyword :: rest =>
      if PyStr.contains keyword text then true else keyword_loop rest text
  end.

(** The outer loop over the items of the table; [None] when it ends
    without returning. *)
Fixpoint category_loop (table : list (string * list string)) (text : string)
  : option string :=
  match table with
  | [] => None
  | (category, keywords) :: rest =>
      if keyword_loop keywords text then Some category
      else category_loop rest text
  end.

Definition categorize_with (table : list (string * list string))
    (text : option string) : string :=
  let text := PyStr.lower (default "" (PyStr.or_else text (Some ""))) in
  match category_loop table text with
  | Some category => category
  | None => "Brief Mentions"
  end.

Definition categorize_article (text : option string) : string :=
  categorize_with CATEGORY_KEYWORDS text.


(** ** The URL date pattern

    [re.search(r'(\d{4}[-/]\d{2}[-/]\d{2})|(\d{8})|(\d{14})', url)]: the
    leftmost position at which one of the three alternatives matches, the
    alternatives being tried in the order they are written. *)

Module Re.

Definition is_digit (c : ascii) : bool :=
  let n := nat_of_ascii c in (Nat.leb 48 n && Nat.leb n 57)%bool.

(** A piece of the pattern: the text it consumes at the head of the
    subject and what is left, or [None] when it does not match there. *)
Definition piece := string → option (string * string).

(** [\d{n}] *)
Fixpoint digits (n : nat) : piece := λ s,
  match n with
  | O => Some ("", s)
  | S n' =>
      match s with
      | String c s' =>
          if is_digit c then
            match digits n' s' with
            | Some (m, rest) => Some (String c m, rest)
            | None => None
            end
          else None
      | EmptyString => None
      end
  end.

(** [[-/]] *)
Definition dash_or_slash : piece := λ s,
  match s with
  | String c s' =>
      if (Ascii.eqb c "-" || Ascii.eqb c "/")%bool
      then Some (String c "", s') else None
  | EmptyString => None
  end.

(** Concatenation of two pieces. *)
Definition cat (p q : piece) : piece := λ s,
  match p s with
  | Some (a, r) =>
      match q r with
      | Some (b, r') => Some (a +:+ b, r')
      | None => None
      end
  | None => None
  end.

(** The match object: the text of each of the three groups, [None] for a
    group that did not take part in the match. *)
Record match_object := mk_match {
  group1 : option string; group2 : option string; group3 : option string
}.

Definition date_with_separators : piece :=
  cat (digits 4) (cat dash_or_slash (cat (digits 2)
      (cat dash_or_slash (digits 2)))).

(** The alternation, anchored at the head of the subject. *)
Definition match_here (s : string) : option match_object :=
  match date_with_separators s with
  | Some (v, _) => Some (mk_match (Some v) None None)
  | None =>
      match digits 8 s with
      | Some (v, _) => Some (mk_match None (Some v) None)
      | None =>
          match digits 14 s with
          | Some (v, _) => Some (mk_match None None (Some v))
          | None => None
          end
      end
  end.

(** [re.search]: try every start position from the left. *)
Fixpoint search (s : string) : option match_object :=
  match match_here s with
  | Some m => Some m
  | None =>
      match s with
      | String _ s' => search s'
      | EmptyString => None
      end
  end.

End Re.

(** ** What comes from outside *)

(** A [<meta>] element: its attribute dictionary. *)
Definition meta_tag := list (string * string).

(** [tag.get(name)] *)
Fixpoint tag_get (tag : meta_tag) (name : string) : option string :=
  match tag with
  | [] => None
  | (k, v) :: rest => if String.eqb k name then Some v else tag_get rest name
  end.

(** What [newspaper.Article] holds after [download], [parse] and [nlp]. *)
Record article := mk_article {
  article_text : string;
  article_summary : string;
  article_html : string;
  article_publish_date : option datetime
}.

(** One search page: the request or the parse raised, or the
    [a.title] elements of the page, each with its stripped text and its
    [href] attribute. *)
Inductive page_outcome :=
| PageRaised
| PageItems (items : list (string * option string)).

Class Externals (World : Type) := {
  (** [dateparser.parse(s)] *)
  dateparser_parse : World → string → option datetime;
  (** [search_dates(text, languages=['en'], settings={'PREFER_DATES_FROM': 'past'})] *)
  search_dates_en : World → string → option (list (string * datetime));
  (** [search_dates(text, settings={"PREFER_DATES_FROM": "past"})] *)
  search_dates : World → string → option (list (string * datetime));
  (** [datetime.strptime(val, "%Y%m%d%H%M%S")]; [None] when it raises. *)
  strptime_ymdhms : string → option datetime;
  (** [datetime.now()] *)
  datetime_now : World → datetime;
  (** The [<meta>] elements of [BeautifulSoup(html, "html.parser")], in
      document order. *)
  soup_meta : string → list meta_tag;
  (** [p.get_text(strip=True)] for the [<p>] elements, in document order. *)
  soup_paragraphs : string → list string;
  (** [(ent.text, ent.label_)] for the entities of [nlp(text)]. *)
  nlp_ents : string → list (string * string);
  (** [Article(url)] downloaded, parsed and summarised; [None] when any of
      these raised. *)
  newspaper_article : string → World → option article * World;
  (** [requests.get(url, ...)] followed by [raise_for_status()]: the body,
      or [None] when either raised. *)
  requests_get : string → World → option string * World;
  (** The search page for a query at an offset. *)
  bing_news_page : string → Z → World → page_outcome * World;
  (** [time.sleep(random.uniform(2, 4))] *)
  time_sleep : World → World
}.

(** ** The program *)

Section Program.
Context {World : Type} {ext : Externals World}.

(** *** Date helpers *)

Definition meta_props : list string :=
  [ "article:published_time"; "og:published_time"; "datePublished";
    "publish_date"; "pubdate"; "publishdate"; "date"; "article:published";
    "parsely-pub-date"; "dc.date"; "dc.date.issued"; "date" ].

(** [soup.find("meta", attrs={attr: value})] *)
Definition soup_find (soup : list meta_tag) (attr value : string)
  : option meta_tag :=
  List.find (λ tag, bool_decide (tag_get tag attr = Some value)) soup.

(** [a or b] on tags-or-[None]; a tag is always truthy. *)
Definition tag_or (a b : option meta_tag) : option meta_tag :=
  match a with Some _ => a | None => b end.

(** The tag looked at for one property name. *)
Definition find_meta (soup : list meta_tag) (prop : string) : option meta_tag :=
  tag_or (soup_find soup "property" prop)
    (tag_or (soup_find soup "name" prop) (soup_find soup "itemprop" prop)).

(** The loop [for prop in meta_props]. *)
Fixpoint meta_loop (w : World) (soup : list meta_tag) (props : list string)
  : option datetime :=
  match props with
  | [] => None
  | prop :: rest =>
      match find_meta soup prop with
      | Some tag =>
          match tag_get tag "content" with
          | Some content =>
              if PyStr.truthy content then
                match dateparser_parse w content with
                | Some date_obj => Some (_make_naive date_obj)
                | None => meta_loop w soup rest
                end
              else meta_loop w soup rest
          | None => meta_loop w soup rest
          end
      | None => meta_loop w soup rest
      end
  end.

Definition extract_date_from_meta (w : World) (html : string)
  : option datetime :=
  meta_loop w (soup_meta html) meta_props.

(** The candidate test of the free-text search. *)
Definition acceptable (now date_obj : datetime) : bool :=
  (2000 <=? year date_obj) && date_le (date_of date_obj) (date_of now).

(** The loop [for _, date_obj in dates]. *)
Fixpoint text_loop (now : datetime) (dates : list (string * datetime))
  : option datetime :=
  match dates with
  | [] => None
  | (_, date_obj) :: rest =>
      let date_obj := _make_naive date_obj in
      if acceptable now date_obj then Some date_obj else text_loop now rest
  end.

Definition extract_date_from_text (w : World) (text : option string)
  : option datetime :=
  match text with
  | Some text =>
      if PyStr.truthy text then
        match search_dates_en w text with
        | Some dates => text_loop (datetime_now w) dates
        | None => None
        end
      else None
  | None => None
  end.

(** The text [match.group(1) or match.group(2) or match.group(3)]. *)
Definition matched_text (m : Re.match_object) : option string :=
  PyStr.or_else (PyStr.or_else (Re.group1 m) (Re.group2 m)) (Re.group3 m).

(** Everything after the match runs under [try: ... except: return None]:
    a [strptime] that raises gives [None]. *)
Definition extract_date_from_url (w : World) (url : string)
  : option datetime :=
  match Re.search url with
  | Some m =>
      match matched_text m with
      | Some val =>
          if Nat.eqb (String.length val) 14
          then _make_naive_opt (strptime_ymdhms val)
          else _make_naive_opt (dateparser_parse w val)
      | None => None
      end
  | None => None
  end.

(** *** The article fetcher *)

(** The date chain at the end of [fetch_full_text_and_summary]: each step
    runs only while [pub_date] is still [None]. *)
Definition resolve_pub_date (w : World) (url : string)
    (full_text : option string) (html : option string)
    (pub_date : option datetime) : option datetime :=
  let pub_date :=
    match pub_date, html with
    | None, Some h =>
        if PyStr.truthy h then extract_date_from_meta w h else pub_date
    | _, _ => pub_date
    end in
  let pub_date :=
    match pub_date with
    | None =>
        if PyStr.truthy_opt full_text then extract_date_from_text w full_text
        else pub_date
    | Some _ => pub_date
    end in
  match pub_date with
  | None => extract_date_from_url w url
  | Some _ => pub_date
  end.

(** [(full_text, pub_date, summary)] *)
Definition fetch_result : Type :=
  option string * option datetime * option string.

(** The body text of the fallback path: the non-empty paragraph texts,
    joined by newlines. *)
Definition fallback_text (html : string) : string :=
  PyStr.join (String "010" "") (List.filter PyStr.truthy (soup_paragraphs html)).

Definition fetch_full_text_and_summary (url : string) (w : World)
  : fetch_result * World :=
  let '(primary, w) := newspaper_article url w in
  match primary with
  | Some a =>
      let full_text := Some (PyStr.strip (article_text a)) in
      let summary := Some (article_summary a) in
      let html := Some (article_html a) in
      let pub_date := _make_naive_opt (article_publish_date a) in
      ((full_text, resolve_pub_date w url full_text html pub_date, summary), w)
  | None =>
      let '(res, w) := requests_get url w in
      match res with
      | Some html =>
          let full_text := Some (fallback_text html) in
          ((full_text, resolve_pub_date w url full_text (Some html) None, None),
           w)
      | None => ((None, None, None), w)
      end
  end.

(** *** Classifier helpers used by the tracker *)

Definition extract_named_entities (text : option string) : list string :=
  match text with
  | Some text =>
      if PyStr.truthy text then
        (List.filter
           (λ ent, bool_decide (ent.2 ∈ ["PERSON"; "ORG"; "GPE"]))
           (nlp_ents text)).*1
      else []
  | None => []
  end.

Definition extract_event_date (w : World) (text : string) : string :=
  match search_dates w text with
  | Some ((_, first) :: _) => strftime_ymd first
  | _ => "Not Mentioned"
  end.

(** [any(k.lower() in text for k in keywords)] over the lower-cased text. *)
Definition contains_keywords (text : option string) (keywords : list string)
  : bool :=
  let text := PyStr.lower (default "" (PyStr.or_else text (Some ""))) in
  existsb (λ k, PyStr.contains (PyStr.lower k) text) keywords.

(** *** The paginated search *)

(** A search hit, [{"title": ..., "url": ...}]. *)
Record hit := mk_hit { hit_title : string; hit_url : string }.

(** The body of [for item in items], on [(seen_urls, all_results)]. *)
Definition add_item (st : gset string * list hit)
    (item : string * option string) : gset string * list hit :=
  let '(seen_urls, all_results) := st in
  let '(title, url) := item in
  match url with
  | Some url =>
      if PyStr.truthy url && bool_decide (url ∉ seen_urls)
      then ({[url]} ∪ seen_urls, all_results ++ [mk_hit title url])
      else st
  | None => st
  end.

(** The loop [while page < max_pages], by recursion on the number
    [max_pages - page] of pages still allowed. *)
Fixpoint bing_pages (pages_left : nat) (query : string) (page : Z)
    (seen_urls : gset string) (all_results : list hit) (w : World)
  : list hit * World :=
  match pages_left with
  | O => (all_results, w)
  | S pages_left =>
      let offset := page * 10 in
      let '(res, w) := bing_news_page query offset w in
      match res with
      | PageRaised => (all_results, w)
      | PageItems [] => (all_results, w)
      | PageItems items =>
          let '(seen_urls, all_results) :=
            fold_left add_item items (seen_urls, all_results) in
          bing_pages pages_left query (page + 1) seen_urls all_results
                     (time_sleep w)
      end
  end.

Definition search_urls_bing_news (query : string) (max_pages : Z) (w : World)
  : list hit * World :=
  bing_pages (Z.to_nat max_pages) query 0 ∅ [] w.

(** *** The tracker *)

(** A row of the matched table. *)
Record tracked_article := mk_tracked {
  Title : string;
  URL : string;
  Published_Date : string;
  Event_Date : string;
  Leader_Mentioned : string;
  Category : string;
  Named_Entities : string;
  Summary : string
}.

(** A row of the failed table. *)
Record failed_article := mk_failed {
  failed_Title : string;
  failed_URL : string;
  failed_Published_Date : string
}.

(** [final_data] and [failed_articles]. *)
Definition tables : Type := list tracked_article * list failed_article.

(** [d and not (start_date <= d.date() <= end_date)] *)
Definition out_of_range (start_date end_date : date) (d : option datetime)
  : bool :=
  match d with
  | Some d => negb (in_range start_date end_date (date_of d))
  | None => false
  end.

(** [d.strftime('%Y-%m-%d') if d else "Unknown"] *)
Definition published (d : option datetime) : string :=
  match d with Some d => strftime_ymd d | None => "Unknown" end.

(** [a or b] on datetimes-or-[None]; a datetime is always truthy. *)
Definition date_or (a b : option datetime) : option datetime :=
  match a with Some _ => a | None => b end.

(** The dictionary appended to [final_data]. *)
Definition tracked_row (w : World) (leaders : list string)
    (title url full_text : string) (pub_date : option datetime)
    (summary : option string) : tracked_article :=
  let category := categorize_article (Some full_text) in
  let named_entities := extract_named_entities (Some full_text) in
  let event_date := extract_event_date w full_text in
  let mentioned :=
    PyStr.join ", "
      (List.filter
         (λ l, PyStr.contains (PyStr.lower l) (PyStr.lower full_text))
         leaders) in
  {| Title := title;
     URL := url;
     Published_Date := published pub_date;
     Event_Date := event_date;
     Leader_Mentioned :=
       default "" (PyStr.or_else (Some mentioned) (Some "Not Mentioned"));
     Category := category;
     Named_Entities := PyStr.join ", " named_entities;
     Summary :=
       if PyStr.truthy full_text then
         default ""
           (PyStr.or_else summary (Some (PyStr.take 500 full_text +:+ "...")))
       else "No summary available." |}.

(** The dictionary appended to [failed_articles]. *)
Definition failed_row (title url : string)
    (pub_date pub_date_from_url : option datetime) : failed_article :=
  let final_date := date_or pub_date pub_date_from_url in
  {| failed_Title := title;
     failed_URL := url;
     failed_Published_Date := published final_date |}.

(** The body of [for result in search_results]. *)
Definition track_hit (leaders all_keywords : list string)
    (start_date end_date : date) (st : tables) (result : hit) (w : World)
  : tables * World :=
  let '(final_data, failed_articles) := st in
  let url := hit_url result in
  let title := hit_title result in
  let pub_date_from_url := extract_date_from_url w url in
  let '(full_text, pub_date, summary, w) := fetch_full_text_and_summary url w in
  if out_of_range start_date end_date pub_date_from_url then (st, w)
  else if out_of_range start_date end_date pub_date then (st, w)
  else if PyStr.truthy_opt full_text
          && contains_keywords full_text all_keywords then
    (final_data
       ++ [tracked_row w leaders title url (default "" full_text) pub_date
                       summary],
     failed_articles, w)
  else
    (final_data,
     failed_articles ++ [failed_row title url pub_date pub_date_from_url], w).

Fixpoint track_hits (leaders all_keywords : list string)
    (start_date end_date : date) (search_results : list hit) (st : tables)
    (w : World) : tables * World :=
  match search_results with
  | [] => (st, w)
  | result :: rest =>
      let '(st, w) :=
        track_hit leaders all_keywords start_date end_date st result w in
      track_hits leaders all_keywords start_date end_date rest st w
  end.

(** [list(set(keywords + leaders))] *)
Definition all_keywords_of (keywords leaders : list string) : list string :=
  elements (list_to_set (keywords ++ leaders) : gset string).

(** The loop [for keyword in keywords], with the default page bound of
    [search_urls_bing_news]. *)
Fixpoint track_keywords (leaders all_keywords : list string)
    (start_date end_date : date) (keywords : list string) (st : tables)
    (w : World) : tables * World :=
  match keywords with
  | [] => (st, w)
  | keyword :: rest =>
      let '(search_results, w) := search_urls_bing_news keyword 5 w in
      let '(st, w) :=
        track_hits leaders all_keywords start_date end_date search_results
                   st w in
      track_keywords leaders all_keywords start_date end_date rest st w
  end.

Definition run_tracker (keywords leaders : list string)
    (start_date end_date : date) (w : World) : tables * World :=
  let final_data := [] in
  let failed_articles := [] in
  let all_keywords := all_keywords_of keywords leaders in
  track_keywords leaders all_keywords start_date end_date keywords
                 (final_data, failed_articles) w.

End Program.

(** ** Reading the chains as "first present result" *)

(** The first present value of a list of optional values. *)
Fixpoint first_present {A : Type} (candidates : list (option A)) : option A :=
  match candidates with
  | [] => None
  | Some a :: _ => Some a
  | None :: rest => first_present rest
  end.

Section Readings.
Context {World : Type} {ext : Externals World}.

(** The date one property name contributes: the parse of the content of
    the element looked at for it, when that content is non-empty. *)
Definition meta_candidate (w : World) (soup : list meta_tag) (prop : string)
  : option datetime :=
  tag ← find_meta soup prop;
  content ← tag_get tag "content";
  if PyStr.truthy content then dateparser_parse w content else None.

(** The first non-empty metadata value, scanning the property names in
    order: the value the specification parses. *)
Definition first_nonempty_meta_value (soup : list meta_tag)
    (props : list string) : option string :=
  first_present
    ((λ prop,
        tag ← find_meta soup prop;
        content ← tag_get tag "content";
        if PyStr.truthy content then Some content else None) <$> props).

(** The metadata date as the specification words it. *)
Definition meta_date_of_first_value (w : World) (html : string)
  : option datetime :=
  content ← first_nonempty_meta_value (soup_meta html) meta_props;
  _make_naive_opt (dateparser_parse w content).

(** The metadata step of the fetcher: tried when there is a document. *)
Definition meta_step (w : World) (html : option string) : option datetime :=
  match html with
  | Some h => if PyStr.truthy h then extract_date_from_meta w h else None
  | None => None
  end.

(** The priority chain of the fetcher. *)
Definition priority_chain (w : World) (url : string)
    (primary : option datetime) (html full_text : option string)
  : option datetime :=
  first_present
    [ primary; meta_step w html; extract_date_from_text w full_text;
      extract_date_from_url w url ].

(** The hits the items of result pages stand for: an item without a
    usable [href] gives none. *)
Definition item_hits (items : list (string * option string)) : list hit :=
  omap (λ item,
          match item.2 with
          | Some url =>
              if PyStr.truthy url then Some (mk_hit item.1 url) else None
          | None => None
          end) items.

(** Of each URL, the first hit only. *)
Fixpoint first_occurrences (hits : list hit) : list hit :=
  match hits with
  | [] => []
  | h :: rest =>
      h :: filter (λ h', hit_url h' ≠ hit_url h) (first_occurrences rest)
  end.

(** The reply to the [n]-th page request of a search that starts at
    [page] in world [w], and the world after it, when every earlier page
    was requested and followed by the pause. *)
Fixpoint page_request (query : string) (page : Z) (n : nat) (w : World)
  : page_outcome * World :=
  match n with
  | O => bing_news_page query (page * 10) w
  | S n' =>
      let '(_, w') := bing_news_page query (page * 10) w in
      page_request query (page + 1) n' (time_sleep w')
  end.

(** The items of a reply; none when the request raised. *)
Definition items_of (res : page_outcome) : list (string * option string) :=
  match res with PageItems items => items | PageRaised => [] end.

(** The items of the first [k] pages, in page-then-position order. *)
Definition pages_items (query : string) (page : Z) (k : nat) (w : World)
  : list (string * option string) :=
  flat_map (λ i, items_of (page_request query page i w).1) (seq 0 k).

(** The number of hits a run of the tracker goes through. *)
Fixpoint hits_processed (leaders all_keywords : list string)
    (start_date end_date : date) (keywords : list string) (st : tables)
    (w : World) : nat :=
  match keywords with
  | [] => 0
  | keyword :: rest =>
      let '(search_results, w) := search_urls_bing_news keyword 5 w in
      let '(st, w) :=
        track_hits leaders all_keywords start_date end_date search_results
                   st w in
      (length search_results
       + hits_processed leaders all_keywords start_date end_date rest st w)%nat
  end.

End Readings.

(** ** A small concrete world

    A tiny web used to run the program on concrete inputs. The article
    library fails everywhere, so every fetch takes the fallback path; two
    pages answer a plain request, a story with two paragraphs and a page
    without any; one document carries two metadata values; dates are
    parsed in the form [YYYY-MM-DD] only; the search for ["Acme Corp"]
    has one page of three results. *)

Module Toy.

Fixpoint number_of (s : string) (acc : Z) : Z :=
  match s with
  | EmptyString => acc
  | String c s' => number_of s' (10 * acc + (Z.of_nat (nat_of_ascii c) - 48))
  end.

Definition parse_iso (s : string) : option datetime :=
  match Re.date_with_separators s with
  | Some (v, EmptyString) =>
      Some (mk_datetime (number_of (substring 0 4 v) 0)
                        (number_of (substring 5 2 v) 0)
                        (number_of (substring 8 2 v) 0) 0 0 0 None)
  | _ => None
  end.

Definition two_dates_html : string :=
  "<meta property='article:published_time' content='unknown'>" +:+
  "<meta property='og:published_time' content='2023-11-05'>".

Definition two_dates_soup : list meta_tag :=
  [ [("property", "article:published_time"); ("content", "unknown")];
    [("property", "og:published_time"); ("content", "2023-11-05")] ].

Definition empty_page_url : string := "https://site.example/empty".

Definition dated_url : string := "https://site.example/news/2023-11-05/story".

Definition story_url : string := "https://site.example/news/2024-03-01/acme".

Definition story_html : string :=
  "<p>Acme Corp opened an office.</p><p>Jane Doe was quoted.</p>".

Definition web : Externals unit := {|
  dateparser_parse := λ _ s, parse_iso s;
  search_dates_en := λ _ _, None;
  search_dates := λ _ _, None;
  strptime_ymdhms := λ _, None;
  datetime_now := λ _, mk_datetime 2026 11 3 12 0 0 None;
  soup_meta := λ html,
    if String.eqb html two_dates_html then two_dates_soup else [];
  soup_paragraphs := λ html,
    if String.eqb html story_html
    then ["Acme Corp opened an office."; "Jane Doe was quoted."] else [];
  nlp_ents := λ _, [];
  newspaper_article := λ _ w, (None, w);
  requests_get := λ url w,
    (if String.eqb url empty_page_url then Some "<html></html>"
     else if String.eqb url story_url then Some story_html
     else None, w);
  bing_news_page := λ query offset w,
    (if String.eqb query "Acme Corp" && (offset =? 0)
     then PageItems [ ("Acme opens an office", Some story_url);
                      ("Nothing here", Some empty_page_url);
                      ("Acme opens an office (again)", Some story_url) ]
     else PageItems [], w);
  time_sleep := λ w, w
|}.

End Toy.

(** ** Measures used by the further properties *)

(** The number of digit characters of a text. *)
Fixpoint count_digits (s : string) : nat :=
  match s with
  | EmptyString => O
  | String c s' => ((if Re.is_digit c then 1 else 0) + count_digits s')%nat
  end.

(** ** The form

    The two text inputs are cut at commas, each piece is stripped, and the
    pieces that are empty after stripping are dropped; the button runs the
    tracker when there is a keyword and both dates are set. *)

Module Form.

(** [text.split(",")] *)
Fixpoint split_comma (text : string) : list string :=
  match text with
  | EmptyString => [""]
  | String c rest =>
      if Ascii.eqb c ","
      then "" :: split_comma rest
      else
        match split_comma rest with
        | piece :: pieces => String c piece :: pieces
        | [] => [String c ""]
        end
  end.

(** [[k.strip() for k in text.split(",") if k.strip()]] *)
Definition parse_names (text : string) : list string :=
  List.filter PyStr.truthy (PyStr.strip <$> split_comma text).

(** What a click on the button leads to. *)
Inductive click_outcome :=
| WarnKeywords
| WarnDates
| Ran (st : tables).

End Form.

(** Does every character of a text pass a test? *)
Fixpoint string_forallb (f : ascii → bool) (s : string) : bool :=
  match s with
  | EmptyString => true
  | String c s' => f c && string_forallb f s'
  end.

Section FormProgram.
Context {World : Type} {ext : Externals World}.

(** The body of [if st.button("Search Articles")], up to the call of the
    tracker; a date input that is not set is [None]. *)
Definition search_clicked (keywords_input leaders_input : string)
    (start_date end_date : option date) (w : World)
  : Form.click_outcome * World :=
  let keywords := Form.parse_names keywords_input in
  let leaders := Form.parse_names leaders_input in
  match keywords with
  | [] => (Form.WarnKeywords, w)
  | _ :: _ =>
      match start_date, end_date with
      | Some start_date, Some end_date =>
          let '(st, w) := run_tracker keywords leaders start_date end_date w in
          (Form.Ran st, w)
      | _, _ => (Form.WarnDates, w)
      end
  end.

End FormProgram.

(** A text that does not begin with white space. *)
Definition starts_clean (s : string) : Prop :=
  match s with
  | String c _ => PyStr.is_space c = false
  | EmptyString => True
  end.

(** A name as the form hands it on: not empty, nothing to strip, no
    comma. *)
Definition clean_name (k : string) : Prop :=
  k ≠ "" ∧ PyStr.strip k = k ∧ PyStr.contains "," k = false.

(** ** The hits of a run

    What a run of the tracker goes through, read off the loops without
    the tables: every hit of every search, in order, with the world it is
    fetched in. *)

Section RunLog.
Context {World : Type} {ext : Externals World}.

(** The hits of one search, each with the world it is fetched in; the
    world moves on by one fetch per hit. *)
Fixpoint hits_log (search_results : list hit) (w : World)
  : list (hit * World) :=
  match search_results with
  | [] => []
  | result :: rest =>
      (result, w)
        :: hits_log rest (fetch_full_text_and_summary (hit_url result) w).2
  end.

(** The world after the hits of one search. *)
Fixpoint world_after_hits (search_results : list hit) (w : World) : World :=
  match search_results with
  | [] => w
  | result :: rest =>
      world_after_hits rest (fetch_full_text_and_summary (hit_url result) w).2
  end.

(** The hits of a whole run, keyword after keyword. *)
Fixpoint run_log (keywords : list string) (w : World) : list (hit * World) :=
  match keywords with
  | [] => []
  | keyword :: rest =>
      let '(search_results, w) := search_urls_bing_news keyword 5 w in
      hits_log search_results w
        ++ run_log rest (world_after_hits search_results w)
  end.

(** Is a hit, fetched in its world, rejected by the date filter? *)
Definition hit_skipped (start_date end_date : date) (e : hit * World) : bool :=
  out_of_range start_date end_date (extract_date_from_url e.2 (hit_url e.1))
  || out_of_range start_date end_date
       (fetch_full_text_and_summary (hit_url e.1) e.2).1.1.2.

(** The rows one hit gives, on its own: the loop body run on empty
    tables. *)
Definition hit_rows (leaders all_keywords : list string)
    (start_date end_date : date) (e : hit * World) : tables :=
  (track_hit leaders all_keywords start_date end_date ([], []) e.1 e.2).1.

End RunLog.

(** ** A second small world

    As the first, but every document has two [<meta>] elements, one
    without a [content] attribute and one with an empty one. *)

Module Bare.

Definition soup : list meta_tag :=
  [ [("property", "article:published_time")];
    [("name", "date"); ("content", "")] ].

Definition web : Externals unit := {|
  dateparser_parse := @dateparser_parse _ Toy.web;
  search_dates_en := @search_dates_en _ Toy.web;
  search_dates := @search_dates _ Toy.web;
  strptime_ymdhms := @strptime_ymdhms _ Toy.web;
  datetime_now := @datetime_now _ Toy.web;
  soup_meta := λ _, soup;
  soup_paragraphs := @soup_paragraphs _ Toy.web;
  nlp_ents := @nlp_ents _ Toy.web;
  newspaper_article := @newspaper_article _ Toy.web;
  requests_get := @requests_get _ Toy.web;
  bing_news_page := @bing_news_page _ Toy.web;
  time_sleep := @time_sleep _ Toy.web
|}.

End Bare.

(** * Properties *)

(** ** The helpers on concrete inputs *)

Example strip_spaces :
  PyStr.strip (String "009" "  Acme  Corp " +:+ String "010" "")
  = "Acme  Corp".
Proof. reflexivity. Qed.

Example lower_mixed : PyStr.lower "Jane DOE, 2024!" = "jane doe, 2024!".
Proof. reflexivity. Qed.

Example contains_inside :
  PyStr.contains "quoted" "jane doe was quoted." = true
  ∧ PyStr.contains "quote." "jane doe was quoted." = false
  ∧ PyStr.contains "" "" = true.
Proof. by vm_compute. Qed.

Example join_two : PyStr.join ", " ["Jane Doe"; "John Roe"] = "Jane Doe, John Roe".
Proof. reflexivity. Qed.

Example strftime_padded :
  strftime_ymd (mk_datetime 2024 3 1 9 5 0 (Some 330)) = "2024-03-01".
Proof. reflexivity. Qed.

Example strftime_early_year :
  strftime_ymd (mk_datetime 999 1 1 0 0 0 None) = "999-01-01"
  ∧ strftime_ymd (mk_datetime 33 4 3 0 0 0 None) = "33-04-03".
Proof. by vm_compute. Qed.

Example in_range_inclusive :
  in_range (mk_date 2024 1 1) (mk_date 2024 12 31) (mk_date 2024 12 31) = true
  ∧ in_range (mk_date 2024 1 1) (mk_date 2024 12 31) (mk_date 2025 1 1) = false
  ∧ in_range (mk_date 2024 1 1) (mk_date 2024 12 31) (mk_date 2023 12 31)
    = false.
Proof. by vm_compute. Qed.

Example search_dashed :
  Re.search "https://site.example/news/2023-11-05/story"
  = Some (Re.mk_match (Some "2023-11-05") None None).
Proof. reflexivity. Qed.

Example search_mixed_separators :
  Re.search "/a/2023/11-05.html"
  = Some (Re.mk_match (Some "2023/11-05") None None).
Proof. reflexivity. Qed.

Example search_leftmost :
  Re.search "/id/12345678/2023-11-05"
  = Some (Re.mk_match None (Some "12345678") None).
Proof. reflexivity. Qed.

Example search_nothing : Re.search "https://site.example/story-7" = None.
Proof. reflexivity. Qed.

Example categorize_quoted :
  categorize_article (Some "Jane Doe was QUOTED in the press release")
  = "Press Release"
  ∧ categorize_article (Some "Jane Doe was quoted.") = "Article Commentary"
  ∧ categorize_article None = "Brief Mentions".
Proof. by vm_compute. Qed.

(** ** Classification *)

Lemma keyword_loop_true keywords text :
  keyword_loop keywords text = true ↔
  ∃ k, k ∈ keywords ∧ PyStr.contains k text = true.
Proof.
  induction keywords as [|k ks IH]; simpl.
  - split; [discriminate | intros (k & Hk & _); inversion Hk].
  - destruct (PyStr.contains k text) eqn:Hc.
    + split; [intros _; exists k; split; [left | done] | done].
    + rewrite IH. split.
      * intros (k' & Hin & Hk'). exists k'. split; [by right | done].
      * intros (k' & Hin & Hk'). exists k'. split; [|done].
        apply elem_of_cons in Hin as [->|Hin]; [congruence | done].
Qed.

Lemma keyword_loop_false keywords text :
  keyword_loop keywords text = false ↔
  ∀ k, k ∈ keywords → PyStr.contains k text = false.
Proof.
  rewrite <- not_true_iff_false, keyword_loop_true. split.
  - intros Hno k Hk. apply not_true_iff_false. intros Hc. apply Hno. eauto.
  - intros Hall (k & Hk & Hc). rewrite (Hall k Hk) in Hc. discriminate.
Qed.

(** The outer loop returns the first entry of the table with a phrase in
    the text. *)
Lemma category_loop_Some table text category :
  category_loop table text = Some category →
  ∃ pre keywords post,
    table = pre ++ (category, keywords) :: post
    ∧ keyword_loop keywords text = true
    ∧ ∀ c' kws', (c', kws') ∈ pre → keyword_loop kws' text = false.
Proof.
  induction table as [|[c kws] rest IH]; simpl; [discriminate|].
  destruct (keyword_loop kws text) eqn:Hk.
  - intros [= <-]. exists [], kws, rest. split_and!; [done | done |].
    intros c' kws' Hin. inversion Hin.
  - intros (pre & kws0 & post & -> & Hhit & Hpre)%IH.
    exists ((c, kws) :: pre), kws0, post. split_and!; [done | done |].
    intros c' kws' [[= -> ->]|Hin]%elem_of_cons; [done | eauto].
Qed.

Lemma category_loop_None table text :
  category_loop table text = None →
  ∀ c kws, (c, kws) ∈ table → keyword_loop kws text = false.
Proof.
  induction table as [|[c kws] rest IH]; simpl.
  - intros _ c kws Hin. inversion Hin.
  - destruct (keyword_loop kws text) eqn:Hk; [discriminate|].
    intros Hrest c' kws' [[= -> ->]|Hin]%elem_of_cons; [done | eauto].
Qed.

(** C7. Classification is total and returns one category of the taxonomy:
    the first one, in declared order, with a trigger phrase occurring in
    the lower-cased text, and the last-declared ["Brief Mentions"] when no
    phrase of any category occurs, as for ["hello world"]. *)
Theorem categorize_article_first_match (text : option string) :
  let lowered := PyStr.lower (default "" (PyStr.or_else text (Some ""))) in
  categorize_article text ∈ CATEGORY_KEYWORDS.*1
  ∧ ((∃ pre keywords post,
        CATEGORY_KEYWORDS = pre ++ (categorize_article text, keywords) :: post
        ∧ (∃ k, k ∈ keywords ∧ PyStr.contains k lowered = true)
        ∧ (∀ c' kws' k', (c', kws') ∈ pre → k' ∈ kws' →
             PyStr.contains k' lowered = false))
     ∨ ((∀ c kws k, (c, kws) ∈ CATEGORY_KEYWORDS → k ∈ kws →
           PyStr.contains k lowered = false)
        ∧ categorize_article text = "Brief Mentions"))
  ∧ last (CATEGORY_KEYWORDS.*1) = Some "Brief Mentions"
  ∧ categorize_article (Some "hello world") = "Brief Mentions".
Proof.
  intros lowered.
  assert (Hcases :
    (∃ pre keywords post,
        CATEGORY_KEYWORDS = pre ++ (categorize_article text, keywords) :: post
        ∧ (∃ k, k ∈ keywords ∧ PyStr.contains k lowered = true)
        ∧ (∀ c' kws' k', (c', kws') ∈ pre → k' ∈ kws' →
             PyStr.contains k' lowered = false))
     ∨ ((∀ c kws k, (c, kws) ∈ CATEGORY_KEYWORDS → k ∈ kws →
           PyStr.contains k lowered = false)
        ∧ categorize_article text = "Brief Mentions")).
  { unfold categorize_article, categorize_with. fold lowered.
    destruct (category_loop CATEGORY_KEYWORDS lowered) as [c|] eqn:Hloop.
    - left. apply category_loop_Some in Hloop as (pre & kws & post & Heq & Hhit & Hpre).
      exists pre, kws, post. split_and!; [done | by apply keyword_loop_true |].
      intros c' kws' k' Hin Hk'.
      by apply (proj1 (keyword_loop_false kws' lowered) (Hpre _ _ Hin)).
    - right. split; [|done]. intros c kws k Hin Hk.
      by apply (proj1 (keyword_loop_false kws lowered)
                  (category_loop_None _ _ Hloop _ _ Hin)). }
  split_and!; [| exact Hcases | reflexivity | reflexivity].
  destruct Hcases as [(pre & kws & post & Heq & _)|[_ ->]].
  - rewrite Heq, fmap_app, fmap_cons. simpl.
    apply elem_of_app. right. left.
  - vm_compute. repeat (first [left | right]).
Qed.

(** ** The URL date pattern *)

Lemma digits_length n s m rest :
  Re.digits n s = Some (m, rest) → String.length m = n.
Proof.
  revert s m rest. induction n as [|n IH]; intros s m rest; simpl.
  - by intros [= <- <-].
  - destruct s as [|c s]; [done|]. destruct (Re.is_digit c); [|done].
    destruct (Re.digits n s) as [[m' r']|] eqn:Hd; [|done].
    intros [= <- <-]. simpl. f_equal. eauto.
Qed.

(** A run of [n + k] digits starts with a run of [n] digits. *)
Lemma digits_shorter n k s :
  is_Some (Re.digits (n + k) s) → is_Some (Re.digits n s).
Proof.
  revert s. induction n as [|n IH]; intros s; simpl; [eauto|].
  destruct s as [|c s]; [done|]. destruct (Re.is_digit c); [|done].
  intros Hlong. destruct (Re.digits (n + k) s) as [[m r]|] eqn:Hd.
  - destruct (IH s) as [[m' r'] Heq]; [by rewrite Hd|]. rewrite Heq. eauto.
  - by destruct Hlong.
Qed.

Lemma string_length_app (a b : string) :
  String.length (a +:+ b) = (String.length a + String.length b)%nat.
Proof. induction a as [|c a IH]; simpl; [done | by rewrite IH]. Qed.

Lemma date_with_separators_length s v rest :
  Re.date_with_separators s = Some (v, rest) → String.length v = 10%nat.
Proof.
  unfold Re.date_with_separators, Re.cat.
  destruct (Re.digits 4 s) as [[a r1]|] eqn:H1; [|done].
  destruct (Re.dash_or_slash r1) as [[b r2]|] eqn:H2; [|done].
  destruct (Re.digits 2 r2) as [[c r3]|] eqn:H3; [|done].
  destruct (Re.dash_or_slash r3) as [[d r4]|] eqn:H4; [|done].
  destruct (Re.digits 2 r4) as [[e r5]|] eqn:H5; [|done].
  intros [= <- <-].
  apply digits_length in H1, H3, H5.
  assert (Hsep : ∀ x y z, Re.dash_or_slash x = Some (y, z) →
                          String.length y = 1%nat).
  { intros [|ch x] y z; simpl; [done|].
    destruct (_ || _)%bool; [|done]. by intros [= <- <-]. }
  apply Hsep in H2, H4.
  rewrite !string_length_app. lia.
Qed.

(** At any one position the 8-digit alternative is tried before the
    14-digit one and matches whenever that one would: the third group
    never takes part in a match, and the matched text has 10 or 8
    characters. *)
Lemma match_here_never_group3 s m :
  Re.match_here s = Some m →
  Re.group3 m = None
  ∧ ∃ val, matched_text m = Some val
           ∧ (String.length val = 10%nat ∨ String.length val = 8%nat).
Proof.
  unfold Re.match_here.
  destruct (Re.date_with_separators s) as [[v r]|] eqn:H1.
  - intros [= <-]. split; [done|]. exists v.
    pose proof (date_with_separators_length _ _ _ H1) as Hlen.
    destruct v; [done|]. split; [done | by left].
  - destruct (Re.digits 8 s) as [[v r]|] eqn:H2.
    + intros [= <-]. split; [done|]. exists v.
      pose proof (digits_length _ _ _ _ H2) as Hlen.
      destruct v; [done|]. split; [done | by right].
    + destruct (Re.digits 14 s) as [[v r]|] eqn:H3; [|done].
      destruct (digits_shorter 8 6 s) as [x Hx];
        [change (is_Some (Re.digits 14 s)); by rewrite H3|].
      congruence.
Qed.

Lemma search_never_group3 url m :
  Re.search url = Some m →
  Re.group3 m = None
  ∧ ∃ val, matched_text m = Some val
           ∧ (String.length val = 10%nat ∨ String.length val = 8%nat).
Proof.
  induction url as [|c url IH]; simpl.
  - done.
  - destruct (Re.match_here (String c url)) eqn:Hm.
    + intros [= <-]. by eapply match_here_never_group3.
    + exact IH.
Qed.

Section UrlDate.
Context {World : Type} {ext : Externals World}.

(** Whatever the URL, the date comes from [dateparser.parse] on the
    matched text: the [strptime] branch is never taken. *)
Lemma extract_date_from_url_via_dateparser (w : World) (url : string) :
  extract_date_from_url w url =
  m ← Re.search url; val ← matched_text m;
  _make_naive_opt (dateparser_parse w val).
Proof.
  unfold extract_date_from_url.
  destruct (Re.search url) as [m|] eqn:Hs; simpl; [|done].
  apply search_never_group3 in Hs as (_ & val & -> & Hlen). simpl.
  by destruct Hlen as [-> | ->].
Qed.

(** No match, or no parse: no date. *)
Lemma extract_date_from_url_None (w : World) (url : string) :
  (Re.search url = None
   ∨ ∃ m val, Re.search url = Some m ∧ matched_text m = Some val
              ∧ dateparser_parse w val = None) →
  extract_date_from_url w url = None.
Proof.
  rewrite extract_date_from_url_via_dateparser.
  intros [-> | (m & val & -> & Hval & Hp)]; [done|].
  simpl. rewrite Hval. simpl. by rewrite Hp.
Qed.

Lemma extract_date_from_url_dashed (w : World) :
  extract_date_from_url w "https://site.example/news/2023-11-05/story"
  = _make_naive_opt (dateparser_parse w "2023-11-05").
Proof. by rewrite extract_date_from_url_via_dateparser. Qed.

(** C4, at a URL with a 14-digit run. The match is the 8-digit
    alternative: only ["20231105"] is handed to a parser (and to
    [dateparser.parse], not [strptime]), the result is the one of the URL
    that has the 8 digits alone, and the six time digits are never read.
    For no URL at all does the matched text have 14 characters. *)
Theorem extract_date_from_url_14_digits (w : World) :
  let url := "https://site.example/20231105143000/story" in
  Re.search url = Some (Re.mk_match None (Some "20231105") None)
  ∧ extract_date_from_url w url
    = _make_naive_opt (dateparser_parse w "20231105")
  ∧ extract_date_from_url w url
    = extract_date_from_url w "https://site.example/20231105/story"
  ∧ ∀ url' m val, Re.search url' = Some m → matched_text m = Some val →
      String.length val ≠ 14%nat.
Proof.
  intros url. split_and!.
  - reflexivity.
  - by rewrite extract_date_from_url_via_dateparser.
  - by rewrite !extract_date_from_url_via_dateparser.
  - intros url' m val Hs Hval.
    apply search_never_group3 in Hs as (_ & val' & Hval' & Hlen).
    assert (val' = val) as -> by congruence. lia.
Qed.

End UrlDate.

(** ** Date helpers *)

Lemma make_naive_tzinfo (dt : datetime) : tzinfo (_make_naive dt) = None.
Proof. unfold _make_naive. by destruct (tzinfo dt) eqn:Htz. Qed.

(** Dropping the timezone keeps the wall-clock reading. *)
Lemma make_naive_wall_clock (dt : datetime) :
  year (_make_naive dt) = year dt ∧ month (_make_naive dt) = month dt
  ∧ day (_make_naive dt) = day dt ∧ hour (_make_naive dt) = hour dt
  ∧ minute (_make_naive dt) = minute dt ∧ second (_make_naive dt) = second dt.
Proof. unfold _make_naive. by destruct (tzinfo dt). Qed.

Lemma first_present_Some {A} (l : list (option A)) (a : A) :
  first_present l = Some a → Some a ∈ l.
Proof.
  induction l as [|[x|] l IH]; simpl; [done | | ].
  - intros [= ->]. left.
  - intros H. right. auto.
Qed.

Lemma first_present_None {A} (l : list (option A)) :
  first_present l = None ↔ ∀ o, o ∈ l → o = None.
Proof.
  induction l as [|[x|] l IH]; simpl.
  - split; [intros _ o Ho; inversion Ho | done].
  - split; [done|]. intros H. discriminate (H (Some x)). left.
  - rewrite IH. split.
    + intros H o [->|Ho]%elem_of_cons; auto.
    + intros H o Ho. apply H. by right.
Qed.

Section DateHelpers.
Context {World : Type} {ext : Externals World}.

Lemma meta_loop_first_present (w : World) soup props :
  meta_loop w soup props
  = _make_naive <$> first_present (meta_candidate w soup <$> props).
Proof.
  induction props as [|prop props IH]; simpl; [done|].
  unfold meta_candidate at 1.
  destruct (find_meta soup prop) as [tag|]; simpl; [|done].
  destruct (tag_get tag "content") as [content|]; simpl; [|done].
  destruct (PyStr.truthy content); [|done].
  by destruct (dateparser_parse w content).
Qed.

(** C6, as the code has it. The property names are scanned in their fixed
    order; a name whose element has no content, an empty content, or a
    content that does not parse is passed over, and the result is the
    naive form (same wall-clock fields, no timezone) of the first date so
    parsed; it is absent when no name yields one. *)
Theorem extract_date_from_meta_first_parsed (w : World) (html : string) :
  extract_date_from_meta w html
  = _make_naive
      <$> first_present (meta_candidate w (soup_meta html) <$> meta_props)
  ∧ (∀ d, extract_date_from_meta w html = Some d →
       tzinfo d = None
       ∧ ∃ prop tag content parsed,
           prop ∈ meta_props
           ∧ find_meta (soup_meta html) prop = Some tag
           ∧ tag_get tag "content" = Some content
           ∧ PyStr.truthy content = true
           ∧ dateparser_parse w content = Some parsed
           ∧ year d = year parsed ∧ month d = month parsed
           ∧ day d = day parsed ∧ hour d = hour parsed
           ∧ minute d = minute parsed ∧ second d = second parsed)
  ∧ (first_nonempty_meta_value (soup_meta html) meta_props = None →
     extract_date_from_meta w html = None).
Proof.
  unfold extract_date_from_meta. rewrite meta_loop_first_present.
  split_and!; [done | |].
  - intros d Hd.
    destruct (first_present _) as [parsed|] eqn:Hfirst; [|done].
    injection Hd as <-. split; [apply make_naive_tzinfo|].
    apply first_present_Some, list_elem_of_fmap in Hfirst
      as (prop & Hcand & Hprop).
    unfold meta_candidate in Hcand.
    destruct (find_meta (soup_meta html) prop) as [tag|] eqn:Htag;
      simpl in Hcand; [|done].
    destruct (tag_get tag "content") as [content|] eqn:Hcontent;
      simpl in Hcand; [|done].
    destruct (PyStr.truthy content) eqn:Htruthy; [|done].
    exists prop, tag, content, parsed.
    pose proof (make_naive_wall_clock parsed) as (? & ? & ? & ? & ? & ?).
    by split_and!.
  - unfold first_nonempty_meta_value. rewrite !first_present_None.
    intros Hnone. assert (Hall : ∀ o,
      o ∈ meta_candidate w (soup_meta html) <$> meta_props → o = None).
    { intros o (prop & -> & Hprop)%list_elem_of_fmap.
      specialize (Hnone _ (list_elem_of_fmap_2 _ _ _ Hprop)).
      unfold meta_candidate. simpl in Hnone. revert Hnone.
      destruct (find_meta (soup_meta html) prop) as [tag|]; simpl; [|done].
      destruct (tag_get tag "content") as [content|]; simpl; [|done].
      destruct (PyStr.truthy content); [discriminate | done]. }
    apply first_present_None in Hall. by rewrite Hall.
Qed.

(** C5. The free-text date is the first candidate of the past-preferring
    phrase search (run on a non-empty text), made naive, whose year is at
    least 2000 and whose calendar date is not after today's: a candidate
    before 2000 or after today is never returned, and the result is absent
    when no candidate is acceptable. *)
Theorem extract_date_from_text_first_acceptable (w : World)
    (text : option string) :
  let candidates :=
    if PyStr.truthy_opt text
    then default [] (search_dates_en w (default "" text)) else [] in
  let now := datetime_now w in
  extract_date_from_text w text
  = List.find (acceptable now) ((λ c, _make_naive c.2) <$> candidates)
  ∧ (∀ d, extract_date_from_text w text = Some d →
       2000 ≤ year d
       ∧ date_le (date_of d) (date_of now) = true
       ∧ ∃ phrase raw, (phrase, raw) ∈ candidates ∧ d = _make_naive raw)
  ∧ ((∀ phrase raw, (phrase, raw) ∈ candidates →
        year (_make_naive raw) < 2000
        ∨ date_le (date_of (_make_naive raw)) (date_of now) = false) →
     extract_date_from_text w text = None).
Proof.
  intros candidates now.
  assert (Hloop : ∀ dates,
    text_loop now dates
    = List.find (acceptable now) ((λ c, _make_naive c.2) <$> dates)).
  { induction dates as [|[phrase raw] dates IH]; simpl; [done|].
    by destruct (acceptable now (_make_naive raw)). }
  assert (Heq : extract_date_from_text w text
    = List.find (acceptable now) ((λ c, _make_naive c.2) <$> candidates)).
  { unfold extract_date_from_text, candidates.
    destruct text as [text|]; simpl; [|done].
    destruct (PyStr.truthy text); [|done]. simpl.
    destruct (search_dates_en w text) as [dates|]; simpl; [|done].
    apply Hloop. }
  split_and!; [done | |].
  - rewrite Heq. intros d Hfind.
    apply find_some in Hfind as [Hin Hacc].
    apply list_elem_of_In, list_elem_of_fmap in Hin as ([phrase raw] & -> & Hin).
    unfold acceptable in Hacc. apply andb_true_iff in Hacc as [Hyear Hdate].
    split_and!; [lia | done | by exists phrase, raw].
  - rewrite Heq. intros Hnone.
    destruct (List.find _ _) as [d|] eqn:Hfind; [|done].
    apply find_some in Hfind as [Hin Hacc].
    apply list_elem_of_In, list_elem_of_fmap in Hin as ([phrase raw] & -> & Hin).
    unfold acceptable in Hacc. apply andb_true_iff in Hacc as [Hyear Hdate].
    destruct (Hnone _ _ Hin) as [Hlt | Hafter]; simpl in *; [lia | congruence].
Qed.

End DateHelpers.

(** C6, as stated, fails where the first non-empty value does not parse
    and a later one does: the code passes on to the later value, the
    claim stops at the first. *)
Lemma extract_date_from_meta_later_value :
  first_nonempty_meta_value (@soup_meta _ Toy.web Toy.two_dates_html)
    meta_props = Some "unknown"
  ∧ meta_date_of_first_value (ext := Toy.web) () Toy.two_dates_html = None
  ∧ extract_date_from_meta (ext := Toy.web) () Toy.two_dates_html
    = Some (mk_datetime 2023 11 5 0 0 0 None)
  ∧ extract_date_from_meta (ext := Toy.web) () Toy.two_dates_html
    ≠ meta_date_of_first_value (ext := Toy.web) () Toy.two_dates_html.
Proof. by vm_compute. Qed.

(** ** The article fetcher *)

Section Fetcher.
Context {World : Type} {ext : Externals World}.

Lemma extract_date_from_text_falsy (w : World) (text : option string) :
  PyStr.truthy_opt text = false → extract_date_from_text w text = None.
Proof.
  destruct text as [text|]; simpl; [|done]. by intros ->.
Qed.

(** The three guarded steps after the primary date are a "first present"
    chain. *)
Lemma resolve_pub_date_chain (w : World) (url : string)
    (full_text html : option string) (pub_date : option datetime) :
  resolve_pub_date w url full_text html pub_date
  = priority_chain w url pub_date html full_text.
Proof.
  assert (Htext :
    (if PyStr.truthy_opt full_text then extract_date_from_text w full_text
     else None) = extract_date_from_text w full_text).
  { destruct (PyStr.truthy_opt full_text) eqn:Ht; [done|].
    by rewrite extract_date_from_text_falsy. }
  unfold resolve_pub_date, priority_chain, meta_step.
  destruct pub_date as [d|]; simpl; [by destruct html|].
  destruct html as [h|]; simpl; [destruct (PyStr.truthy h); simpl|].
  - destruct (extract_date_from_meta w h); simpl; [done|].
    rewrite Htext. destruct (extract_date_from_text w full_text); [done|].
    by destruct (extract_date_from_url w url).
  - rewrite Htext. destruct (extract_date_from_text w full_text); [done|].
    by destruct (extract_date_from_url w url).
  - rewrite Htext. destruct (extract_date_from_text w full_text); [done|].
    by destruct (extract_date_from_url w url).
Qed.

(** C3, as the code has it. When the primary extraction or the fallback
    request succeeds, the publish date is the first present result of:
    the primary date, metadata extraction on the retrieved HTML, free-text
    extraction on the body text, URL-pattern extraction on the URL (so a
    present primary date is the result). When both fail, the fetcher
    returns no text and no date, and the URL is not looked at. *)
Theorem fetch_pub_date_priority (url : string) (w : World) :
  match newspaper_article url w with
  | (Some a, w1) =>
      let body := PyStr.strip (article_text a) in
      let primary := _make_naive_opt (article_publish_date a) in
      fetch_full_text_and_summary url w
      = ((Some body,
          priority_chain w1 url primary (Some (article_html a)) (Some body),
          Some (article_summary a)), w1)
      ∧ (is_Some primary →
         (fetch_full_text_and_summary url w).1.1.2 = primary)
  | (None, w1) =>
      match requests_get url w1 with
      | (Some html, w2) =>
          let body := fallback_text html in
          fetch_full_text_and_summary url w
          = ((Some body,
              priority_chain w2 url None (Some html) (Some body), None), w2)
      | (None, w2) =>
          fetch_full_text_and_summary url w = ((None, None, None), w2)
      end
  end.
Proof.
  unfold fetch_full_text_and_summary.
  destruct (newspaper_article url w) as [[a|] w1].
  - simpl. rewrite resolve_pub_date_chain. split; [done|].
    intros [d Hd]. simpl. unfold priority_chain. by rewrite Hd.
  - destruct (requests_get url w1) as [[html|] w2]; [|done].
    simpl. by rewrite resolve_pub_date_chain.
Qed.

End Fetcher.

(** C3, as stated, fails on a total fetch failure: for a URL that carries
    a date, the chain of the claim ends in the URL date, and the fetcher
    returns no date. *)
Lemma fetch_total_failure_drops_url_date :
  fetch_full_text_and_summary (ext := Toy.web) Toy.dated_url ()
  = ((None, None, None), ())
  ∧ priority_chain (ext := Toy.web) () Toy.dated_url None None None
    = Some (mk_datetime 2023 11 5 0 0 0 None)
  ∧ (fetch_full_text_and_summary (ext := Toy.web) Toy.dated_url ()).1.1.2
    ≠ priority_chain (ext := Toy.web) () Toy.dated_url None None None.
Proof. by vm_compute. Qed.

(** ** The paginated search *)

Section FirstOccurrences.

Lemma first_occurrences_filter (P : string → Prop) `{!∀ u, Decision (P u)}
    (hits : list hit) :
  first_occurrences (filter (λ h, P (hit_url h)) hits)
  = filter (λ h, P (hit_url h)) (first_occurrences hits).
Proof.
  induction hits as [|h t IH]; [done|]. simpl.
  destruct (decide (P (hit_url h))) as [Hp|Hp].
  - rewrite !filter_cons_True by done. simpl. rewrite IH.
    f_equal. rewrite !list_filter_filter. apply list_filter_iff. tauto.
  - rewrite !filter_cons_False by done. rewrite IH.
    rewrite list_filter_filter. apply list_filter_iff.
    intros h'. split; [|by intros [? _]].
    intros Hp'. split; [done|]. intros Heq. by rewrite Heq in Hp'.
Qed.

Lemma first_occurrences_sublist (hits : list hit) :
  first_occurrences hits `sublist_of` hits.
Proof.
  induction hits as [|h t IH]; simpl; [done|].
  apply sublist_skip. etrans; [apply sublist_filter | done].
Qed.

Lemma first_occurrences_NoDup (hits : list hit) :
  NoDup (hit_url <$> first_occurrences hits).
Proof.
  induction hits as [|h t IH]; simpl; [constructor|].
  apply NoDup_cons. split.
  - intros (h' & Heq & Hin)%list_elem_of_fmap.
    apply list_elem_of_filter in Hin as [Hne _]. by apply Hne.
  - eapply sublist_NoDup; [exact IH|].
    apply fmap_sublist, sublist_filter.
Qed.

(** A hit that is kept is the first one of the input with its URL. *)
Lemma first_occurrences_first (hits : list hit) (h : hit) :
  h ∈ first_occurrences hits →
  ∃ pre post, hits = pre ++ h :: post ∧ hit_url h ∉ hit_url <$> pre.
Proof.
  induction hits as [|h0 t IH]; simpl; [by intros ?%elem_of_nil|].
  intros [->|Hin]%elem_of_cons.
  - exists [], t. split; [done|]. simpl. apply not_elem_of_nil.
  - apply list_elem_of_filter in Hin as [Hne Hin].
    destruct (IH Hin) as (pre & post & -> & Hfresh).
    exists (h0 :: pre), post. split; [done|].
    rewrite fmap_cons. intros [Heq|Hpre]%elem_of_cons; [by apply Hne | done].
Qed.

(** Every URL of the input is kept. *)
Lemma first_occurrences_urls (hits : list hit) (u : string) :
  u ∈ hit_url <$> first_occurrences hits ↔ u ∈ hit_url <$> hits.
Proof.
  split.
  - intros (h & -> & Hin)%list_elem_of_fmap. apply list_elem_of_fmap_2.
    eapply elem_of_sublist; [exact Hin | apply first_occurrences_sublist].
  - induction hits as [|h0 t IH]; simpl; [done|].
    destruct (decide (u = hit_url h0)) as [->|Hne].
    + intros _. left.
    + intros [?|Hin]%elem_of_cons; [done|]. right.
      apply IH in Hin as (h & -> & Hin)%list_elem_of_fmap.
      apply list_elem_of_fmap_2, list_elem_of_filter. split; [|done].
      simpl. congruence.
Qed.

Lemma item_hits_app items1 items2 :
  item_hits (items1 ++ items2) = item_hits items1 ++ item_hits items2.
Proof. unfold item_hits. apply omap_app. Qed.

(** The inner loop, from any set of seen URLs and list of results: the
    new results are the first occurrences among the hits not seen. *)
Lemma fold_add_item (items : list (string * option string))
    (seen_urls : gset string) (all_results : list hit) :
  fold_left add_item items (seen_urls, all_results)
  = (list_to_set (hit_url <$> item_hits items) ∪ seen_urls,
     all_results
       ++ first_occurrences
            (filter (λ h, hit_url h ∉ seen_urls) (item_hits items))).
Proof.
  revert seen_urls all_results.
  induction items as [|[title url] items IH]; intros seen_urls all_results.
  - simpl. rewrite app_nil_r. f_equal. set_solver.
  - simpl. unfold item_hits at 1 2. simpl. fold (item_hits items).
    destruct url as [url|]; simpl; [|apply IH].
    destruct (PyStr.truthy url); simpl; [|apply IH].
    destruct (decide (url ∉ seen_urls)) as [Hnew|Hold].
    + rewrite bool_decide_eq_true_2 by done. rewrite IH.
      rewrite filter_cons_True by done. simpl.
      f_equal; [set_solver|].
      rewrite <- app_assoc. simpl. do 2 f_equal.
      pose proof (first_occurrences_filter (λ u, u ≠ url)
        (filter (λ h, hit_url h ∉ seen_urls) (item_hits items))) as Hcomm.
      simpl in Hcomm. etrans; [|exact Hcomm].
      f_equal. rewrite list_filter_filter.
      apply list_filter_iff. set_solver.
    + rewrite bool_decide_eq_false_2 by done. rewrite IH.
      rewrite filter_cons_False by done. f_equal.
      apply dec_stable in Hold. set_solver.
Qed.

End FirstOccurrences.

Section Search.
Context {World : Type} {ext : Externals World}.

Lemma page_request_S (query : string) (page : Z) (n : nat) (w : World) :
  page_request query (page) (S n) w
  = page_request query (page + 1) n
      (time_sleep (bing_news_page query (page * 10) w).2).
Proof. simpl. by destruct (bing_news_page query (page * 10) w). Qed.

Lemma flat_map_fmap {A B C} (f : B → list C) (g : A → B) (l : list A) :
  flat_map f (g <$> l) = flat_map (λ a, f (g a)) l.
Proof. induction l as [|a l IH]; simpl; [done | f_equal; exact IH]. Qed.

Lemma pages_items_S (query : string) (page : Z) (k : nat) (w : World) :
  pages_items query page (S k) w
  = items_of (bing_news_page query (page * 10) w).1
    ++ pages_items query (page + 1) k
         (time_sleep (bing_news_page query (page * 10) w).2).
Proof.
  unfold pages_items. cbn [seq flat_map]. f_equal.
  rewrite <- fmap_S_seq, flat_map_fmap.
  apply flat_map_ext. intros i. by rewrite page_request_S.
Qed.

Lemma filter_unseen (seen_urls : gset string) (hits : list hit) :
  seen_urls = ∅ → filter (λ h, hit_url h ∉ seen_urls) hits = hits.
Proof.
  intros ->. induction hits as [|h t IH]; [done|].
  rewrite filter_cons_True by set_solver. by rewrite IH.
Qed.

(** The outer loop, from any page, set of seen URLs and list of results:
    it consumes some number [k] of pages, all of them fetched and
    non-empty, and stops at the bound, at a request that raised, or at an
    empty page. *)
Lemma bing_pages_consumed (pages_left : nat) (query : string) (page : Z)
    (seen_urls : gset string) (all_results : list hit) (w : World) :
  ∃ k : nat,
    (k ≤ pages_left)%nat
    ∧ (∀ i : nat, (i < k)%nat →
         ∃ item items,
           (page_request query page i w).1 = PageItems (item :: items))
    ∧ (k = pages_left
       ∨ (page_request query page k w).1 = PageRaised
       ∨ (page_request query page k w).1 = PageItems [])
    ∧ (bing_pages pages_left query page seen_urls all_results w).1
      = (fold_left add_item (pages_items query page k w)
           (seen_urls, all_results)).2.
Proof.
  revert page seen_urls all_results w.
  induction pages_left as [|n IH]; intros page seen_urls all_results w.
  - exists 0%nat. split_and!; [lia | intros i; lia | by left | done].
  - pose proof (pages_items_S query page) as Hitems.
    pose proof (page_request_S query page) as Hreq.
    destruct (bing_news_page query (page * 10) w) as [res w1] eqn:Hpage.
    destruct res as [|[|item items]].
    + exists 0%nat. split_and!; [lia | intros i; lia | |].
      * right. left. simpl. by rewrite Hpage.
      * cbn [bing_pages]. by rewrite Hpage.
    + exists 0%nat. split_and!; [lia | intros i; lia | |].
      * right. right. simpl. by rewrite Hpage.
      * cbn [bing_pages]. by rewrite Hpage.
    + destruct (fold_left add_item (item :: items) (seen_urls, all_results))
        as [seen' results'] eqn:Hfold.
      destruct (IH (page + 1) seen' results' (time_sleep w1))
        as (k & Hle & Hfull & Hstop & Hres).
      exists (S k). split_and!.
      * lia.
      * intros [|i] Hi.
        -- exists item, items. simpl. by rewrite Hpage.
        -- rewrite Hreq, Hpage. simpl. apply Hfull. lia.
      * rewrite Hreq, Hpage. simpl.
        destruct Hstop as [->|Hstop]; [by left | by right].
      * cbn [bing_pages]. rewrite Hpage, Hfold, Hres, Hitems, Hpage.
        cbn [items_of fst snd].
        by rewrite fold_left_app, Hfold.
Qed.


(** C8. The hits one search call returns carry pairwise different URLs:
    they are the hits of the pages it went through, in page-then-position
    order, each URL kept at its first occurrence only. *)
Theorem search_urls_bing_news_unique (query : string) (max_pages : Z)
    (w : World) :
  let results := (search_urls_bing_news query max_pages w).1 in
  NoDup (hit_url <$> results)
  ∧ ∃ k : nat,
      let fetched := item_hits (pages_items query 0 k w) in
      results = first_occurrences fetched
      ∧ (∀ u, u ∈ hit_url <$> results ↔ u ∈ hit_url <$> fetched)
      ∧ (∀ h, h ∈ results →
           ∃ pre post, fetched = pre ++ h :: post
                       ∧ hit_url h ∉ hit_url <$> pre).
Proof.
  intros results. unfold results, search_urls_bing_news.
  destruct (bing_pages_consumed (Z.to_nat max_pages) query 0 ∅ [] w)
    as (k & _ & _ & _ & Hres).
  rewrite Hres, fold_add_item. cbn [snd app]. rewrite filter_unseen by done.
  split; [apply first_occurrences_NoDup|].
  exists k. split_and!; [done | |].
  - intros u. apply first_occurrences_urls.
  - intros h. apply first_occurrences_first.
Qed.

End Search.

(** ** The tracker *)

(** [date_le] is the lexicographic order on (year, month, day). *)
Lemma date_le_lex (a b : date) :
  date_le a b = true ↔
  d_year a < d_year b
  ∨ (d_year a = d_year b
     ∧ (d_month a < d_month b
        ∨ (d_month a = d_month b ∧ d_day a ≤ d_day b))).
Proof.
  unfold date_le.
  rewrite !orb_true_iff, !andb_true_iff, !orb_true_iff, !andb_true_iff.
  rewrite !Z.ltb_lt, !Z.eqb_eq, Z.leb_le. tauto.
Qed.

Lemma out_of_range_true (start_date end_date : date) (d : option datetime) :
  out_of_range start_date end_date d = true ↔
  ∃ dt, d = Some dt ∧ in_range start_date end_date (date_of dt) = false.
Proof.
  destruct d as [dt|]; simpl.
  - rewrite negb_true_iff. split; [eauto | by intros (? & [= <-] & ?)].
  - split; [done | by intros (? & ? & _)].
Qed.

Lemma existsb_elem_of {A} (f : A → bool) (l : list A) :
  existsb f l = true ↔ ∃ x, x ∈ l ∧ f x = true.
Proof.
  rewrite existsb_exists.
  split; intros (x & Hin & Hf); exists x; by rewrite ?list_elem_of_In in *.
Qed.

(** The order and multiplicity lost in [list(set(...))] do not matter to
    [any]. *)
Lemma contains_keywords_all_keywords (text : option string)
    (keywords leaders : list string) :
  contains_keywords text (all_keywords_of keywords leaders)
  = contains_keywords text (keywords ++ leaders).
Proof.
  unfold contains_keywords, all_keywords_of.
  apply eq_true_iff_eq. rewrite !existsb_elem_of.
  split; intros (k & Hin & Hk); exists k; (split; [|done]).
  - by apply elem_of_elements, elem_of_list_to_set in Hin.
  - by apply elem_of_elements, elem_of_list_to_set.
Qed.

(** A non-empty keyword cannot occur in an empty text. *)
Lemma contains_keywords_empty_text (keywords : list string) :
  (∀ k, k ∈ keywords → k ≠ "") →
  contains_keywords (Some "") keywords = false.
Proof.
  intros Hne. apply not_true_iff_false. unfold contains_keywords.
  rewrite existsb_elem_of. intros (k & Hin & Hk).
  apply (Hne k Hin). destruct k as [|c k]; [done|]. discriminate.
Qed.

Section Tracker.
Context {World : Type} {ext : Externals World}.

(** One pass through the loop body, by cases. *)
Lemma track_hit_cases (leaders all_keywords : list string)
    (start_date end_date : date) (final_data : list tracked_article)
    (failed_articles : list failed_article) (result : hit) (w : World) :
  let url := hit_url result in
  let title := hit_title result in
  let pub_date_from_url := extract_date_from_url w url in
  let fetched := fetch_full_text_and_summary url w in
  let full_text := fetched.1.1.1 in
  let pub_date := fetched.1.1.2 in
  let summary := fetched.1.2 in
  track_hit leaders all_keywords start_date end_date
            (final_data, failed_articles) result w
  = (if out_of_range start_date end_date pub_date_from_url
        || out_of_range start_date end_date pub_date
     then (final_data, failed_articles)
     else if PyStr.truthy_opt full_text
             && contains_keywords full_text all_keywords
     then (final_data
             ++ [tracked_row fetched.2 leaders title url (default "" full_text)
                             pub_date summary],
           failed_articles)
     else (final_data,
           failed_articles
             ++ [failed_row title url pub_date pub_date_from_url]),
     fetched.2).
Proof.
  unfold track_hit. cbn zeta.
  destruct (fetch_full_text_and_summary (hit_url result) w)
    as [[[full_text pub_date] summary] w1]. cbn [fst snd].
  destruct (out_of_range start_date end_date
              (extract_date_from_url w (hit_url result))); [done|].
  destruct (out_of_range start_date end_date pub_date); [done|].
  cbn [orb]. by destruct (_ && _).
Qed.

(** C1. A hit leaves both tables as they were exactly when the URL date
    or the fetch date is present and its calendar date is outside
    [[start_date, end_date]]; a hit with both dates absent always adds a
    row. *)
Theorem track_hit_skipped_iff (leaders all_keywords : list string)
    (start_date end_date : date) (st : tables) (result : hit) (w : World) :
  let pub_date_from_url := extract_date_from_url w (hit_url result) in
  let pub_date := (fetch_full_text_and_summary (hit_url result) w).1.1.2 in
  let st' :=
    (track_hit leaders all_keywords start_date end_date st result w).1 in
  (st' = st ↔
   (∃ d, pub_date_from_url = Some d
         ∧ in_range start_date end_date (date_of d) = false)
   ∨ (∃ d, pub_date = Some d
           ∧ in_range start_date end_date (date_of d) = false))
  ∧ (pub_date_from_url = None ∧ pub_date = None → st' ≠ st).
Proof.
  intros pub_date_from_url pub_date st'.
  assert (Hiff : st' = st ↔
    out_of_range start_date end_date pub_date_from_url
    || out_of_range start_date end_date pub_date = true).
  { unfold st'. destruct st as [final_data failed_articles].
    rewrite track_hit_cases. cbn [fst].
    fold pub_date_from_url. fold pub_date.
    destruct (_ || _); [done|].
    split; [|done]. destruct (_ && _); intros [= Hsame];
      apply (f_equal length) in Hsame; rewrite length_app in Hsame;
      simpl in Hsame; lia. }
  split.
  - by rewrite Hiff, orb_true_iff, !out_of_range_true.
  - intros [Hurl Hfetch]. rewrite Hiff, Hurl, Hfetch. done.
Qed.

(** The routing for any names, empty ones too. A hit that passes the date
    filter becomes a
    matched row when its full text is present, non-empty and contains, in
    lower case, one of the keywords or leader names in lower case;
    otherwise, and so also when the text is absent, it becomes a failed
    row whose published date is the fetch date when present, else the URL
    date, else ["Unknown"]. *)
Theorem track_hit_routing (keywords leaders : list string)
    (start_date end_date : date) (final_data : list tracked_article)
    (failed_articles : list failed_article) (result : hit) (w : World) :
  let url := hit_url result in
  let title := hit_title result in
  let pub_date_from_url := extract_date_from_url w url in
  let fetched := fetch_full_text_and_summary url w in
  let full_text := fetched.1.1.1 in
  let pub_date := fetched.1.1.2 in
  let st' :=
    (track_hit leaders (all_keywords_of keywords leaders) start_date end_date
               (final_data, failed_articles) result w).1 in
  out_of_range start_date end_date pub_date_from_url = false →
  out_of_range start_date end_date pub_date = false →
  match full_text with
  | Some text =>
      if PyStr.truthy text
         && existsb (λ k, PyStr.contains (PyStr.lower k) (PyStr.lower text))
                    (keywords ++ leaders)
      then st' = (final_data
                    ++ [tracked_row fetched.2 leaders title url text pub_date
                                    fetched.1.2],
                  failed_articles)
      else st' = (final_data,
                  failed_articles
                    ++ [failed_row title url pub_date pub_date_from_url])
  | None =>
      st' = (final_data,
             failed_articles
               ++ [failed_row title url pub_date pub_date_from_url])
  end
  ∧ failed_Published_Date (failed_row title url pub_date pub_date_from_url)
    = match pub_date, pub_date_from_url with
      | Some d, _ => strftime_ymd d
      | None, Some d => strftime_ymd d
      | None, None => "Unknown"
      end.
Proof.
  intros url title pub_date_from_url fetched full_text pub_date st' Hurl Hfetch.
  split; [|by destruct pub_date, pub_date_from_url].
  unfold st'. rewrite track_hit_cases. cbn [fst].
  fold url. fold pub_date_from_url. fold fetched. fold pub_date.
  rewrite Hurl, Hfetch. cbn [orb].
  rewrite contains_keywords_all_keywords. fold full_text.
  destruct full_text as [text|]; [|done]. cbn [PyStr.truthy_opt default].
  unfold contains_keywords.
  destruct text as [|c text]; [done|].
  cbn [PyStr.truthy PyStr.or_else PyStr.truthy_opt default andb].
  by destruct (existsb _ _).
Qed.

(** The loop over the hits of one search adds at most one row per hit. *)
Lemma track_hits_rows (leaders all_keywords : list string)
    (start_date end_date : date) (search_results : list hit) (st : tables)
    (w : World) :
  let st' :=
    (track_hits leaders all_keywords start_date end_date search_results st w).1
  in
  (length st'.1 + length st'.2
   ≤ length st.1 + length st.2 + length search_results)%nat.
Proof.
  revert st w. induction search_results as [|result rest IH]; intros st w.
  - simpl. lia.
  - cbn [track_hits].
    destruct (track_hit leaders all_keywords start_date end_date st result w)
      as [st1 w1] eqn:Hstep.
    specialize (IH st1 w1). cbn zeta in IH |- *.
    assert (length st1.1 + length st1.2 ≤ S (length st.1 + length st.2))%nat.
    { destruct st as [final_data failed_articles].
      rewrite track_hit_cases in Hstep. injection Hstep as <- _.
      destruct (_ || _); [simpl; lia|].
      destruct (_ && _); simpl; rewrite length_app; simpl; lia. }
    simpl length. lia.
Qed.

Lemma track_keywords_rows (leaders all_keywords : list string)
    (start_date end_date : date) (keywords : list string) (st : tables)
    (w : World) :
  let st' :=
    (track_keywords leaders all_keywords start_date end_date keywords st w).1
  in
  (length st'.1 + length st'.2
   ≤ length st.1 + length st.2
     + hits_processed leaders all_keywords start_date end_date keywords st w)%nat.
Proof.
  revert st w. induction keywords as [|keyword rest IH]; intros st w.
  - simpl. lia.
  - cbn [track_keywords hits_processed].
    destruct (search_urls_bing_news keyword 5 w) as [search_results w1].
    pose proof (track_hits_rows leaders all_keywords start_date end_date
                  search_results st w1) as Hhits.
    destruct (track_hits leaders all_keywords start_date end_date
                search_results st w1) as [st1 w2].
    specialize (IH st1 w2). cbn zeta in *. cbn [fst] in Hhits. lia.
Qed.

(** One pass of the loop body appends the rows of the hit, which do not
    depend on the tables, and moves the world on by the fetch. *)
Lemma track_hit_gives_rows (leaders all_keywords : list string)
    (start_date end_date : date) (st : tables) (result : hit) (w : World) :
  track_hit leaders all_keywords start_date end_date st result w
  = ((st.1 ++ (hit_rows leaders all_keywords start_date end_date
                        (result, w)).1,
      st.2 ++ (hit_rows leaders all_keywords start_date end_date
                        (result, w)).2),
     (fetch_full_text_and_summary (hit_url result) w).2).
Proof.
  destruct st as [final_data failed_articles]. unfold hit_rows.
  rewrite !track_hit_cases. cbn [fst snd].
  destruct (_ || _); [by rewrite !app_nil_r|].
  destruct (_ && _); cbn [fst snd]; by rewrite ?app_nil_r.
Qed.

(** A hit gives no row when it is skipped and one row otherwise. *)
Lemma hit_rows_count (leaders all_keywords : list string)
    (start_date end_date : date) (e : hit * World) :
  (length (hit_rows leaders all_keywords start_date end_date e).1
   + length (hit_rows leaders all_keywords start_date end_date e).2)%nat
  = if hit_skipped start_date end_date e then 0%nat else 1%nat.
Proof.
  unfold hit_rows, hit_skipped. rewrite track_hit_cases. cbn [fst snd].
  destruct (_ || _); [done|]. by destruct (_ && _).
Qed.

Lemma hits_log_length (search_results : list hit) (w : World) :
  length (hits_log search_results w) = length search_results.
Proof.
  revert w. induction search_results as [|result rest IH]; intros w; simpl;
    [done | by rewrite IH].
Qed.

(** The loop over the hits of one search appends, hit by hit, the rows
    of each hit of its log. *)
Lemma track_hits_by_log (leaders all_keywords : list string)
    (start_date end_date : date) (search_results : list hit) (st : tables)
    (w : World) :
  track_hits leaders all_keywords start_date end_date search_results st w
  = ((st.1 ++ flat_map
                (λ e, (hit_rows leaders all_keywords start_date end_date e).1)
                (hits_log search_results w),
      st.2 ++ flat_map
                (λ e, (hit_rows leaders all_keywords start_date end_date e).2)
                (hits_log search_results w)),
     world_after_hits search_results w).
Proof.
  revert st w. induction search_results as [|result rest IH]; intros st w.
  - destruct st. simpl. by rewrite !app_nil_r.
  - cbn [track_hits hits_log world_after_hits flat_map].
    rewrite track_hit_gives_rows, IH. cbn [fst snd].
    by rewrite <- !app_assoc.
Qed.

Lemma track_keywords_by_log (leaders all_keywords : list string)
    (start_date end_date : date) (keywords : list string) (st : tables)
    (w : World) :
  (track_keywords leaders all_keywords start_date end_date keywords st w).1
  = (st.1 ++ flat_map
               (λ e, (hit_rows leaders all_keywords start_date end_date e).1)
               (run_log keywords w),
     st.2 ++ flat_map
               (λ e, (hit_rows leaders all_keywords start_date end_date e).2)
               (run_log keywords w)).
Proof.
  revert st w. induction keywords as [|keyword rest IH]; intros st w.
  - destruct st. simpl. by rewrite !app_nil_r.
  - cbn [track_keywords run_log].
    destruct (search_urls_bing_news keyword 5 w) as [search_results w1].
    rewrite track_hits_by_log, IH. cbn [fst snd].
    by rewrite !flat_map_app, <- !app_assoc.
Qed.

Lemma rows_count_by_log (leaders all_keywords : list string)
    (start_date end_date : date) (log : list (hit * World)) :
  (length (flat_map
             (λ e, (hit_rows leaders all_keywords start_date end_date e).1)
             log)
   + length (flat_map
               (λ e, (hit_rows leaders all_keywords start_date end_date e).2)
               log))%nat
  = length (filter (λ e, hit_skipped start_date end_date e = false) log).
Proof.
  induction log as [|e log IH]; [done|].
  cbn [flat_map]. rewrite !length_app, filter_cons.
  pose proof (hit_rows_count leaders all_keywords start_date end_date e)
    as Hcount.
  destruct (hit_skipped start_date end_date e);
    [rewrite decide_False by done | rewrite decide_True by done];
    simpl length; lia.
Qed.

Lemma run_log_length (leaders all_keywords : list string)
    (start_date end_date : date) (keywords : list string) (st : tables)
    (w : World) :
  length (run_log keywords w)
  = hits_processed leaders all_keywords start_date end_date keywords st w.
Proof.
  revert st w. induction keywords as [|keyword rest IH]; intros st w.
  - done.
  - cbn [run_log hits_processed].
    destruct (search_urls_bing_news keyword 5 w) as [search_results w1].
    rewrite track_hits_by_log, length_app, hits_log_length.
    f_equal. apply IH.
Qed.

(** C10. A hit that is not skipped adds one row to exactly one of the
    two tables and leaves the other as it was, a skipped hit adds none.
    Over a run, each table is, in order, what the hits the run goes
    through give one by one, so the rows of both tables together are
    exactly as many as the hits that are not skipped, and at most as many
    as the hits processed. *)
Theorem run_tracker_one_row_per_hit :
  (∀ (leaders all_keywords : list string) (start_date end_date : date)
     (final_data : list tracked_article)
     (failed_articles : list failed_article) (result : hit) (w : World),
     let pub_date_from_url := extract_date_from_url w (hit_url result) in
     let pub_date :=
       (fetch_full_text_and_summary (hit_url result) w).1.1.2 in
     let st' :=
       (track_hit leaders all_keywords start_date end_date
                  (final_data, failed_articles) result w).1 in
     if out_of_range start_date end_date pub_date_from_url
        || out_of_range start_date end_date pub_date
     then st' = (final_data, failed_articles)
     else (∃ row, st' = (final_data ++ [row], failed_articles))
          ∨ (∃ row, st' = (final_data, failed_articles ++ [row])))
  ∧ (∀ (keywords leaders : list string) (start_date end_date : date)
       (w : World),
       let all_keywords := all_keywords_of keywords leaders in
       let log := run_log keywords w in
       let st' := (run_tracker keywords leaders start_date end_date w).1 in
       st'.1
       = flat_map
           (λ e, (hit_rows leaders all_keywords start_date end_date e).1) log
       ∧ st'.2
         = flat_map
             (λ e, (hit_rows leaders all_keywords start_date end_date e).2)
             log
       ∧ (length st'.1 + length st'.2)%nat
         = length (filter (λ e, hit_skipped start_date end_date e = false) log)
       ∧ length log
         = hits_processed leaders all_keywords start_date end_date keywords
             ([], []) w
       ∧ (length st'.1 + length st'.2
          ≤ hits_processed leaders all_keywords start_date end_date keywords
              ([], []) w)%nat).
Proof.
  split.
  - intros. unfold st'. rewrite track_hit_cases. cbn [fst].
    fold pub_date_from_url. fold pub_date.
    destruct (_ || _); [done|].
    destruct (_ && _); [left | right]; eauto.
  - intros. unfold st', run_tracker. cbn zeta. fold all_keywords.
    rewrite track_keywords_by_log. cbn [fst snd app]. fold log.
    pose proof (rows_count_by_log leaders all_keywords start_date end_date
                  log) as Hcount.
    pose proof (run_log_length leaders all_keywords start_date end_date
                  keywords ([], []) w) as Hlen. fold log in Hlen.
    split_and!; [done | done | done | done |].
    rewrite Hcount, <- Hlen. apply length_filter.
Qed.

End Tracker.

Section Routing.
Context {World : Type} {ext : Externals World}.

(** C2. With keywords and leader names as the form hands them on, none
    of them empty: a hit that passes the date filter becomes a matched
    row when its full text is present and contains, without regard to
    case, one of the keywords or leader names; otherwise, and so when the
    text is absent, it becomes a failed row whose published date is the
    fetch date when present, else the URL date, else ["Unknown"]. *)
Theorem track_hit_matched_or_failed (keywords leaders : list string)
    (start_date end_date : date) (final_data : list tracked_article)
    (failed_articles : list failed_article) (result : hit) (w : World) :
  let url := hit_url result in
  let title := hit_title result in
  let pub_date_from_url := extract_date_from_url w url in
  let fetched := fetch_full_text_and_summary url w in
  let full_text := fetched.1.1.1 in
  let pub_date := fetched.1.1.2 in
  let st' :=
    (track_hit leaders (all_keywords_of keywords leaders) start_date end_date
               (final_data, failed_articles) result w).1 in
  (∀ k, k ∈ keywords ++ leaders → k ≠ "") →
  out_of_range start_date end_date pub_date_from_url = false →
  out_of_range start_date end_date pub_date = false →
  match full_text with
  | Some text =>
      if existsb (λ k, PyStr.contains (PyStr.lower k) (PyStr.lower text))
                 (keywords ++ leaders)
      then st' = (final_data
                    ++ [tracked_row fetched.2 leaders title url text pub_date
                                    fetched.1.2],
                  failed_articles)
      else st' = (final_data,
                  failed_articles
                    ++ [failed_row title url pub_date pub_date_from_url])
  | None =>
      st' = (final_data,
             failed_articles
               ++ [failed_row title url pub_date pub_date_from_url])
  end
  ∧ failed_Published_Date (failed_row title url pub_date pub_date_from_url)
    = match pub_date, pub_date_from_url with
      | Some d, _ => strftime_ymd d
      | None, Some d => strftime_ymd d
      | None, None => "Unknown"
      end.
Proof.
  intros url title pub_date_from_url fetched full_text pub_date st'
    Hnames Hurl Hfetch.
  split; [|by destruct pub_date, pub_date_from_url].
  unfold st'. rewrite track_hit_cases. cbn [fst].
  fold url. fold pub_date_from_url. fold fetched. fold pub_date.
  rewrite Hurl, Hfetch. cbn [orb].
  rewrite contains_keywords_all_keywords. fold full_text.
  destruct full_text as [text|]; [|done].
  destruct text as [|c text].
  - assert (Hempty :
      existsb (λ k, PyStr.contains (PyStr.lower k) (PyStr.lower ""))
              (keywords ++ leaders) = false)
      by exact (contains_keywords_empty_text _ Hnames).
    by rewrite Hempty.
  - unfold contains_keywords.
    cbn [PyStr.truthy_opt PyStr.truthy PyStr.or_else default andb].
    by destruct (existsb _ _).
Qed.

End Routing.

(** On the small web, with the names ["Acme Corp"] and ["Jane Doe"]: the
    story is matched, the page without text fails with the date
    ["Unknown"]. *)
Lemma track_hit_matched_or_failed_toy :
  let keywords := ["Acme Corp"] in
  let leaders := ["Jane Doe"] in
  let start_date := mk_date 2024 1 1 in
  let end_date := mk_date 2024 12 31 in
  (∀ k, k ∈ keywords ++ leaders → k ≠ "")
  ∧ out_of_range start_date end_date
      (extract_date_from_url (ext := Toy.web) () Toy.story_url) = false
  ∧ out_of_range start_date end_date
      (fetch_full_text_and_summary (ext := Toy.web) Toy.story_url ()).1.1.2
    = false
  ∧ (track_hit (ext := Toy.web) leaders (all_keywords_of keywords leaders)
       start_date end_date ([], [])
       (mk_hit "Acme opens an office" Toy.story_url) ()).1
    = ([ {| Title := "Acme opens an office";
            URL := Toy.story_url;
            Published_Date := "2024-03-01";
            Event_Date := "Not Mentioned";
            Leader_Mentioned := "Jane Doe";
            Category := "Article Commentary";
            Named_Entities := "";
            Summary :=
              String.append "Acme Corp opened an office."
                (String "010" "Jane Doe was quoted....") |} ], [])
  ∧ (track_hit (ext := Toy.web) leaders (all_keywords_of keywords leaders)
       start_date end_date ([], [])
       (mk_hit "Nothing here" Toy.empty_page_url) ()).1
    = ([], [mk_failed "Nothing here" Toy.empty_page_url "Unknown"]).
Proof.
  intros keywords leaders start_date end_date.
  assert (Hnames : ∀ k, k ∈ keywords ++ leaders → k ≠ "").
  { intros k Hk. simpl in Hk.
    repeat (apply elem_of_cons in Hk as [->|Hk]); [done | done |].
    by apply elem_of_nil in Hk. }
  split; [exact Hnames|]. split; [reflexivity|]. split; [reflexivity|].
  split.
  - exact (proj1 (track_hit_matched_or_failed (ext := Toy.web) keywords leaders
                    start_date end_date [] []
                    (mk_hit "Acme opens an office" Toy.story_url) ()
                    Hnames eq_refl eq_refl)).
  - exact (proj1 (track_hit_matched_or_failed (ext := Toy.web) keywords leaders
                    start_date end_date [] []
                    (mk_hit "Nothing here" Toy.empty_page_url) ()
                    Hnames eq_refl eq_refl)).
Defined.

(** With an empty leader name, which the form never hands on, an empty
    text goes to the failed table although the empty name occurs in it:
    a page without paragraphs is fetched with the text [""]. *)
Lemma track_hit_empty_text_fails :
  let result := mk_hit "Nothing here" Toy.empty_page_url in
  let keywords := ["Acme Corp"] in
  let leaders := [""] in
  let start_date := mk_date 2024 1 1 in
  let end_date := mk_date 2024 12 31 in
  let fetched :=
    (fetch_full_text_and_summary (ext := Toy.web) Toy.empty_page_url ()).1 in
  fetched = (Some "", None, None)
  ∧ extract_date_from_url (ext := Toy.web) () Toy.empty_page_url = None
  ∧ contains_keywords fetched.1.1 (keywords ++ leaders) = true
  ∧ (track_hit (ext := Toy.web) leaders (all_keywords_of keywords leaders)
       start_date end_date ([], []) result ()).1
    = ([], [mk_failed "Nothing here" Toy.empty_page_url "Unknown"]).
Proof. by vm_compute. Qed.

(** The routing of a story that passes the date filter and mentions a
    leader: it becomes a matched row. *)
Lemma track_hit_story_matched :
  let start_date := mk_date 2024 1 1 in
  let end_date := mk_date 2024 12 31 in
  out_of_range start_date end_date
    (extract_date_from_url (ext := Toy.web) () Toy.story_url) = false
  ∧ out_of_range start_date end_date
      (fetch_full_text_and_summary (ext := Toy.web) Toy.story_url ()).1.1.2
    = false
  ∧ (track_hit (ext := Toy.web) ["Jane Doe"]
       (all_keywords_of ["Acme Corp"] ["Jane Doe"])
       start_date end_date ([], [])
       (mk_hit "Acme opens an office" Toy.story_url) ()).1
    = ([ {| Title := "Acme opens an office";
            URL := Toy.story_url;
            Published_Date := "2024-03-01";
            Event_Date := "Not Mentioned";
            Leader_Mentioned := "Jane Doe";
            Category := "Article Commentary";
            Named_Entities := "";
            Summary :=
              String.append "Acme Corp opened an office."
                (String "010" "Jane Doe was quoted....") |} ], []).
Proof.
  intros start_date end_date.
  split; [reflexivity|]. split; [reflexivity|].
  exact (proj1 (track_hit_routing (ext := Toy.web) ["Acme Corp"] ["Jane Doe"]
                  start_date end_date [] []
                  (mk_hit "Acme opens an office" Toy.story_url) ()
                  eq_refl eq_refl)).
Defined.

(** A whole run on the small web: the story is matched once, the page
    without text fails, the repeated result is not fetched again. *)
Example run_tracker_acme :
  let st := (run_tracker (ext := Toy.web) ["Acme Corp"] ["Jane Doe"]
               (mk_date 2024 1 1) (mk_date 2024 12 31) ()).1 in
  (Title <$> st.1) = ["Acme opens an office"]
  ∧ (Category <$> st.1) = ["Article Commentary"]
  ∧ (Leader_Mentioned <$> st.1) = ["Jane Doe"]
  ∧ st.2 = [mk_failed "Nothing here" Toy.empty_page_url "Unknown"].
Proof. by vm_compute. Qed.

(** * Further properties of the code *)

(** ** Naive dates *)

(** X1. [_make_naive] is idempotent, leaves a naive value as it is and
    never changes the calendar date. *)
Theorem make_naive_idempotent (dt : datetime) :
  _make_naive (_make_naive dt) = _make_naive dt
  ∧ (tzinfo dt = None → _make_naive dt = dt)
  ∧ date_of (_make_naive dt) = date_of dt.
Proof.
  unfold _make_naive, date_of. destruct dt as [y m d h mi s [tz|]]; simpl.
  - by split_and!.
  - by split_and!.
Qed.

Section NaiveDates.
Context {World : Type} {ext : Externals World}.

Lemma text_loop_naive (now : datetime) dates d :
  text_loop now dates = Some d → tzinfo d = None.
Proof.
  induction dates as [|[phrase raw] dates IH]; simpl; [done|].
  destruct (acceptable now (_make_naive raw)); [|done].
  intros [= <-]. apply make_naive_tzinfo.
Qed.

Lemma extract_date_from_meta_naive (w : World) html d :
  extract_date_from_meta w html = Some d → tzinfo d = None.
Proof.
  unfold extract_date_from_meta. rewrite meta_loop_first_present.
  destruct (first_present _); [|done]. intros [= <-]. apply make_naive_tzinfo.
Qed.

Lemma extract_date_from_text_naive (w : World) text d :
  extract_date_from_text w text = Some d → tzinfo d = None.
Proof.
  unfold extract_date_from_text. destruct text as [text|]; [|done].
  destruct (PyStr.truthy text); [|done].
  destruct (search_dates_en w text); [|done]. apply text_loop_naive.
Qed.

Lemma extract_date_from_url_naive (w : World) url d :
  extract_date_from_url w url = Some d → tzinfo d = None.
Proof.
  unfold extract_date_from_url, _make_naive_opt.
  destruct (Re.search url) as [m|]; [|done].
  destruct (matched_text m) as [val|]; [|done].
  destruct (Nat.eqb _ _).
  - destruct (strptime_ymdhms val); [|done].
    intros [= <-]. apply make_naive_tzinfo.
  - destruct (dateparser_parse w val); [|done].
    intros [= <-]. apply make_naive_tzinfo.
Qed.

(** X2. Whatever the parsers hand back, each of the three date helpers
    returns a naive value or nothing. *)
Theorem date_helpers_return_naive (w : World) (html url : string)
    (text : option string) :
  (∀ d, extract_date_from_meta w html = Some d → tzinfo d = None)
  ∧ (∀ d, extract_date_from_text w text = Some d → tzinfo d = None)
  ∧ (∀ d, extract_date_from_url w url = Some d → tzinfo d = None).
Proof.
  split_and!; intros d.
  - apply extract_date_from_meta_naive.
  - apply extract_date_from_text_naive.
  - apply extract_date_from_url_naive.
Qed.

Lemma resolve_pub_date_naive (w : World) url full_text html pub_date d :
  (∀ d0, pub_date = Some d0 → tzinfo d0 = None) →
  resolve_pub_date w url full_text html pub_date = Some d → tzinfo d = None.
Proof.
  intros Hprimary. rewrite resolve_pub_date_chain. unfold priority_chain.
  intros Hin%first_present_Some.
  repeat (apply elem_of_cons in Hin as [Hin|Hin]).
  - by apply Hprimary.
  - unfold meta_step in Hin. destruct html as [h|]; [|done].
    destruct (PyStr.truthy h); [|done].
    by eapply extract_date_from_meta_naive.
  - by eapply extract_date_from_text_naive.
  - by eapply extract_date_from_url_naive.
  - by apply elem_of_nil in Hin.
Qed.

(** X3. The publish date the fetcher returns is naive, on the primary
    path (where the library's own date may carry a timezone) as on the
    fallback path. *)
Theorem fetch_pub_date_naive (url : string) (w : World) (d : datetime) :
  (fetch_full_text_and_summary url w).1.1.2 = Some d → tzinfo d = None.
Proof.
  unfold fetch_full_text_and_summary.
  destruct (newspaper_article url w) as [[a|] w1].
  - cbn [fst snd]. apply resolve_pub_date_naive.
    unfold _make_naive_opt. intros d0.
    destruct (article_publish_date a); [|done].
    intros [= <-]. apply make_naive_tzinfo.
  - destruct (requests_get url w1) as [[html|] w2]; [|done].
    cbn [fst snd]. by apply resolve_pub_date_naive.
Qed.

(** X4. A fetch result without text has no date and no summary, and a
    summary comes with a text: the fallback path gives a text and no
    summary, total failure gives nothing at all. *)
Theorem fetch_absent_text (url : string) (w : World) :
  let fetched := (fetch_full_text_and_summary url w).1 in
  (fetched.1.1 = None → fetched.1.2 = None ∧ fetched.2 = None)
  ∧ (is_Some fetched.2 → is_Some fetched.1.1)
  ∧ (fetched.1.1 = None ↔
     (newspaper_article url w).1 = None
     ∧ (requests_get url (newspaper_article url w).2).1 = None).
Proof.
  unfold fetch_full_text_and_summary.
  destruct (newspaper_article url w) as [[a|] w1]; cbn [fst snd].
  - split_and!; [done | eauto |]. split; [done | by intros [? _]].
  - destruct (requests_get url w1) as [[html|] w2]; cbn [fst snd].
    + split_and!; [done | by intros [? ?] |].
      split; [done | by intros [_ ?]].
    + by split_and!.
Qed.

End NaiveDates.

(** The date of the story of the small web is naive. *)
Lemma fetch_pub_date_naive_story :
  (fetch_full_text_and_summary (ext := Toy.web) Toy.story_url ()).1.1.2
  = Some (mk_datetime 2024 3 1 0 0 0 None)
  ∧ tzinfo (mk_datetime 2024 3 1 0 0 0 None) = None.
Proof.
  split; [reflexivity|].
  exact (fetch_pub_date_naive (ext := Toy.web) Toy.story_url ()
           (mk_datetime 2024 3 1 0 0 0 None) eq_refl).
Defined.

(** ** Strings *)

Lemma string_app_nil_l (b : string) : "" +:+ b = b.
Proof. reflexivity. Qed.

Lemma string_app_cons (c : ascii) (a b : string) :
  String c a +:+ b = String c (a +:+ b).
Proof. reflexivity. Qed.

Lemma string_app_nil_r (a : string) : a +:+ "" = a.
Proof.
  induction a as [|c a IH]; [done|]. by rewrite string_app_cons, IH.
Qed.

Lemma string_app_assoc (a b c : string) : (a +:+ b) +:+ c = a +:+ b +:+ c.
Proof.
  induction a as [|x a IH]; [done|]. by rewrite !string_app_cons, IH.
Qed.

Lemma prefix_app (p s : string) :
  String.prefix p s = true ↔ ∃ post, s = p +:+ post.
Proof.
  revert p. induction s as [|b s IH]; intros [|a p]; simpl.
  - split; [by exists "" | done].
  - split; [done | intros [post Hpost]; discriminate].
  - split; [by exists (String b s) | done].
  - destruct (ascii_dec a b) as [->|Hne].
    + rewrite IH. split; intros [post Hpost]; exists post.
      * by rewrite string_app_cons, <- Hpost.
      * rewrite string_app_cons in Hpost. by injection Hpost.
    + split; [done|]. intros [post Hpost].
      rewrite string_app_cons in Hpost. injection Hpost as <- _. done.
Qed.

(** [p in s] holds exactly when [s] is some text, then [p], then some
    text. *)
Lemma contains_spec (p s : string) :
  PyStr.contains p s = true ↔ ∃ pre post, s = pre +:+ p +:+ post.
Proof.
  induction s as [|c s IH]; cbn [PyStr.contains].
  - rewrite orb_false_r, prefix_app. split.
    + intros [post Hpost]. by exists "", post.
    + intros (pre & post & Heq). exists post.
      destruct pre; [done | discriminate].
  - rewrite orb_true_iff, prefix_app, IH. split.
    + intros [[post Hpost] | (pre & post & Hs)].
      * by exists "", post.
      * exists (String c pre), post. by rewrite string_app_cons, <- Hs.
    + intros ([|c' pre] & post & Heq).
      * left. by exists post.
      * right. rewrite string_app_cons in Heq. injection Heq as _ ->. eauto.
Qed.

Lemma contains_trans (a b c : string) :
  PyStr.contains a b = true → PyStr.contains b c = true →
  PyStr.contains a c = true.
Proof.
  rewrite !contains_spec.
  intros (p1 & q1 & ->) (p2 & q2 & ->).
  exists (p2 +:+ p1), (q1 +:+ q2). by rewrite !string_app_assoc.
Qed.

Lemma contains_empty (s : string) : PyStr.contains "" s = true.
Proof. apply contains_spec. by exists "", s. Qed.

Lemma lower_char_idempotent (c : ascii) :
  PyStr.lower_char (PyStr.lower_char c) = PyStr.lower_char c.
Proof. by destruct c as [[] [] [] [] [] [] [] []]. Qed.

Lemma lower_idempotent (s : string) : PyStr.lower (PyStr.lower s) = PyStr.lower s.
Proof.
  induction s as [|c s IH]; simpl; [done|].
  by rewrite lower_char_idempotent, IH.
Qed.

Lemma or_empty_text (text : string) :
  default "" (PyStr.or_else (Some text) (Some "")) = text.
Proof. by destruct text. Qed.

(** ** More on classification *)

(** X5. Classification does not see the case of letters: two texts with
    the same lower-case form get the same category. *)
Theorem categorize_article_ignores_case (text1 text2 : string) :
  PyStr.lower text1 = PyStr.lower text2 →
  categorize_article (Some text1) = categorize_article (Some text2).
Proof.
  intros Hlower. unfold categorize_article, categorize_with.
  by rewrite !or_empty_text, Hlower.
Qed.

Lemma categorize_article_ignores_case_keynote :
  PyStr.lower "KEYNOTE by Jane Doe" = PyStr.lower "Keynote by JANE doe"
  ∧ categorize_article (Some "KEYNOTE by Jane Doe")
    = categorize_article (Some "Keynote by JANE doe").
Proof.
  split; [reflexivity|].
  exact (categorize_article_ignores_case "KEYNOTE by Jane Doe"
           "Keynote by JANE doe" eq_refl).
Defined.

(** Two tables with the same category names, whose phrase lists hit the
    same texts, classify alike. *)
Lemma category_loop_ext (table1 table2 : list (string * list string))
    (text : string) :
  Forall2 (λ e1 e2, e1.1 = e2.1
                    ∧ keyword_loop e1.2 text = keyword_loop e2.2 text)
          table1 table2 →
  category_loop table1 text = category_loop table2 text.
Proof.
  induction 1 as [|[c1 k1] [c2 k2] t1 t2 [Hname Hhit] _ IH]; simpl; [done|].
  simpl in Hname, Hhit. subst c2. rewrite Hhit, IH. done.
Qed.

(** A phrase list and a part of it that holds, for every phrase left
    out, a phrase that occurs in it, hit the same texts. *)
Lemma keyword_loop_subsumed (keywords kept : list string) (text : string) :
  kept ⊆ keywords →
  (∀ k, k ∈ keywords → ∃ k', k' ∈ kept ∧ PyStr.contains k' k = true) →
  keyword_loop keywords text = keyword_loop kept text.
Proof.
  intros Hsub Hcover. apply eq_true_iff_eq. rewrite !keyword_loop_true.
  split; intros (k & Hin & Hk).
  - destruct (Hcover k Hin) as (k' & Hin' & Hsubstr).
    exists k'. split; [done|]. by eapply contains_trans.
  - exists k. split; [by apply Hsub | done].
Qed.

(** X6. The trigger phrases of the last category decide nothing: it is
    also the default, so the table without that entry classifies every
    text alike. *)
Theorem categorize_article_last_entry_idle (text : option string) :
  categorize_article text = categorize_with (take 5 CATEGORY_KEYWORDS) text.
Proof.
  unfold categorize_article, categorize_with.
  set (lowered := PyStr.lower _).
  assert (Hsplit : ∀ table kws,
    match category_loop (table ++ [("Brief Mentions", kws)]) lowered with
    | Some c => c | None => "Brief Mentions" end
    = match category_loop table lowered with
      | Some c => c | None => "Brief Mentions" end).
  { induction table as [|[c k] table IH]; intros kws; simpl.
    - by destruct (keyword_loop kws lowered).
    - destruct (keyword_loop k lowered); [done | apply IH]. }
  exact (Hsplit (take 5 CATEGORY_KEYWORDS) _).
Qed.

(** X7. The phrases ["jury member"], ["jury panel"] and
    ["jury appointment"] decide nothing either: each holds ["jury"], so
    a text with one of them is caught by ["jury"] already. *)
Theorem categorize_article_jury_phrases_idle (text : option string) :
  categorize_article text
  = categorize_with (<[1%nat := ("Jury", ["jury"; "judge"])]> CATEGORY_KEYWORDS)
      text.
Proof.
  unfold categorize_article, categorize_with.
  set (lowered := PyStr.lower _).
  rewrite (category_loop_ext CATEGORY_KEYWORDS
             (<[1%nat := ("Jury", ["jury"; "judge"])]> CATEGORY_KEYWORDS)
             lowered); [done|].
  constructor; [by split|].
  constructor; [|repeat (constructor; [by split|]); constructor].
  split; [done|]. apply keyword_loop_subsumed.
  - set_solver.
  - intros k Hk. simpl in Hk.
    repeat (apply elem_of_cons in Hk as [->|Hk]);
      [exists "jury" | exists "judge" | exists "jury" | exists "jury"
       | exists "jury" | by apply elem_of_nil in Hk];
      (split; [set_solver | reflexivity]).
Qed.

(** ** Keyword matching *)

(** X8. Keyword matching does not see the case of letters, in the text
    or in the keywords. *)
Theorem contains_keywords_ignores_case (text : string)
    (keywords : list string) :
  contains_keywords (Some text) keywords
  = contains_keywords (Some (PyStr.lower text)) (PyStr.lower <$> keywords).
Proof.
  unfold contains_keywords. rewrite !or_empty_text, lower_idempotent.
  induction keywords as [|k ks IH]; simpl; [done|].
  by rewrite lower_idempotent, IH.
Qed.

(** X9. Only the set of keywords matters to the match, not their order
    or how often one is listed. *)
Theorem contains_keywords_same_set (text : option string)
    (keywords1 keywords2 : list string) :
  (∀ k, k ∈ keywords1 ↔ k ∈ keywords2) →
  contains_keywords text keywords1 = contains_keywords text keywords2.
Proof.
  intros Hsame. unfold contains_keywords.
  apply eq_true_iff_eq. rewrite !existsb_elem_of.
  split; intros (k & Hin & Hk); exists k; (split; [by apply Hsame | done]).
Qed.

Lemma contains_keywords_same_set_swapped :
  (∀ k, k ∈ ["Acme Corp"; "Jane Doe"; "Acme Corp"]
        ↔ k ∈ ["Jane Doe"; "Acme Corp"])
  ∧ contains_keywords (Some "Jane Doe was quoted.")
      ["Acme Corp"; "Jane Doe"; "Acme Corp"]
    = contains_keywords (Some "Jane Doe was quoted.")
        ["Jane Doe"; "Acme Corp"].
Proof.
  assert (Hsame : ∀ k, k ∈ ["Acme Corp"; "Jane Doe"; "Acme Corp"]
                       ↔ k ∈ ["Jane Doe"; "Acme Corp"]) by set_solver.
  split; [exact Hsame|].
  exact (contains_keywords_same_set (Some "Jane Doe was quoted.")
           ["Acme Corp"; "Jane Doe"; "Acme Corp"] ["Jane Doe"; "Acme Corp"]
           Hsame).
Defined.

(** X10. An empty keyword matches every text, an absent or empty one
    too; with no keyword at all nothing matches. *)
Theorem contains_keywords_empty_keyword (text : option string)
    (keywords : list string) :
  ("" ∈ keywords → contains_keywords text keywords = true)
  ∧ contains_keywords text [] = false.
Proof.
  split; [|done]. intros Hin. unfold contains_keywords.
  apply existsb_elem_of. exists "". split; [done|]. apply contains_empty.
Qed.

(** ** More on the date helpers *)

Lemma digits_count (n : nat) (s m rest : string) :
  Re.digits n s = Some (m, rest) →
  count_digits s = (n + count_digits rest)%nat.
Proof.
  revert s m rest. induction n as [|n IH]; intros s m rest; simpl.
  - by intros [= _ <-].
  - destruct s as [|c s]; [done|].
    destruct (Re.is_digit c) eqn:Hc; [|done].
    destruct (Re.digits n s) as [[m' r']|] eqn:Hd; [|done].
    intros [= _ <-]. simpl. rewrite Hc. erewrite IH; [|exact Hd]. lia.
Qed.

Lemma dash_or_slash_count (s m rest : string) :
  Re.dash_or_slash s = Some (m, rest) →
  (count_digits rest ≤ count_digits s)%nat.
Proof.
  destruct s as [|c s]; simpl; [done|].
  destruct (_ || _)%bool; [|done]. intros [= _ <-]. lia.
Qed.

Lemma digits_count_ge (n : nat) (s : string) :
  is_Some (Re.digits n s) → (n ≤ count_digits s)%nat.
Proof. intros [[m rest] Hd]. apply digits_count in Hd. lia. Qed.

Lemma date_with_separators_count (s v rest : string) :
  Re.date_with_separators s = Some (v, rest) → (8 ≤ count_digits s)%nat.
Proof.
  unfold Re.date_with_separators, Re.cat.
  destruct (Re.digits 4 s) as [[a r1]|] eqn:H1; [|done].
  destruct (Re.dash_or_slash r1) as [[b r2]|] eqn:H2; [|done].
  destruct (Re.digits 2 r2) as [[c r3]|] eqn:H3; [|done].
  destruct (Re.dash_or_slash r3) as [[d r4]|] eqn:H4; [|done].
  destruct (Re.digits 2 r4) as [[e r5]|] eqn:H5; [|done].
  intros _. apply digits_count in H1, H3, H5.
  apply dash_or_slash_count in H2, H4. lia.
Qed.

Lemma match_here_count (s : string) (m : Re.match_object) :
  Re.match_here s = Some m → (8 ≤ count_digits s)%nat.
Proof.
  unfold Re.match_here.
  destruct (Re.date_with_separators s) as [[v r]|] eqn:H1.
  - intros _. by eapply date_with_separators_count.
  - destruct (Re.digits 8 s) as [[v r]|] eqn:H8.
    + intros _. apply (digits_count_ge 8). by rewrite H8.
    + destruct (Re.digits 14 s) as [[v r]|] eqn:H14; [|done].
      intros _. etrans; [|apply (digits_count_ge 14); by rewrite H14]. lia.
Qed.

Lemma search_count (url : string) (m : Re.match_object) :
  Re.search url = Some m → (8 ≤ count_digits url)%nat.
Proof.
  induction url as [|c url IH]; simpl; [done|].
  destruct (Re.match_here (String c url)) eqn:Hm.
  - intros _. apply match_here_count in Hm. exact Hm.
  - intros Hs. apply IH in Hs. lia.
Qed.

Section MoreDateHelpers.
Context {World : Type} {ext : Externals World}.

(** X11. A URL with fewer than eight digit characters has no date,
    whatever the parsers would make of it. *)
Theorem extract_date_from_url_few_digits (w : World) (url : string) :
  (count_digits url < 8)%nat → extract_date_from_url w url = None.
Proof.
  intros Hfew. unfold extract_date_from_url.
  destruct (Re.search url) as [m|] eqn:Hs; [|done].
  apply search_count in Hs. lia.
Qed.

(** X12. The second ["date"] at the end of the property names decides
    nothing: the scan over the first eleven names gives the same
    result. *)
Theorem extract_date_from_meta_repeated_name (w : World) (html : string) :
  extract_date_from_meta w html
  = meta_loop w (soup_meta html) (take 11 meta_props).
Proof.
  unfold extract_date_from_meta. rewrite !meta_loop_first_present. f_equal.
  change meta_props with (take 11 meta_props ++ ["date"]) at 1.
  rewrite fmap_app.
  set (f := meta_candidate w (soup_meta html)).
  assert (Hin : f "date" ∈ f <$> take 11 meta_props).
  { apply list_elem_of_fmap_2. vm_compute. set_solver. }
  revert Hin. generalize (f <$> take 11 meta_props). simpl.
  generalize (f "date"). intros o l. induction l as [|[x|] l IH]; simpl.
  - by intros ?%elem_of_nil.
  - done.
  - intros [->|Hin]%elem_of_cons; [|auto].
    clear IH. induction l as [|[x|] l IH]; simpl; done.
Qed.

(** X13. A document none of whose [<meta>] elements has a non-empty
    [content] has no metadata date. *)
Theorem extract_date_from_meta_no_content (w : World) (html : string) :
  (∀ tag, tag ∈ soup_meta html →
     tag_get tag "content" = None ∨ tag_get tag "content" = Some "") →
  extract_date_from_meta w html = None.
Proof.
  intros Hempty. unfold extract_date_from_meta.
  rewrite meta_loop_first_present.
  assert (Hnone : first_present
            (meta_candidate w (soup_meta html) <$> meta_props) = None);
    [|by rewrite Hnone].
  apply first_present_None. intros o (prop & -> & _)%list_elem_of_fmap.
  unfold meta_candidate.
  destruct (find_meta (soup_meta html) prop) as [tag|] eqn:Hfind; [|done].
  assert (Htag : tag ∈ soup_meta html).
  { unfold find_meta, tag_or, soup_find in Hfind.
    destruct (List.find _ _) as [t1|] eqn:H1 in Hfind.
    - injection Hfind as <-. apply find_some in H1 as [Hin _].
      by apply list_elem_of_In.
    - destruct (List.find _ _) as [t2|] eqn:H2 in Hfind.
      + injection Hfind as <-. apply find_some in H2 as [Hin _].
        by apply list_elem_of_In.
      + apply find_some in Hfind as [Hin _]. by apply list_elem_of_In. }
  simpl. by destruct (Hempty tag Htag) as [-> | ->].
Qed.

End MoreDateHelpers.

Lemma extract_date_from_url_few_digits_story7 :
  (count_digits "https://site.example/story-7" < 8)%nat
  ∧ extract_date_from_url (ext := Toy.web) () "https://site.example/story-7"
    = None.
Proof.
  assert (Hfew : (count_digits "https://site.example/story-7" < 8)%nat)
    by (vm_compute; lia).
  split; [exact Hfew|].
  exact (extract_date_from_url_few_digits (ext := Toy.web) ()
           "https://site.example/story-7" Hfew).
Defined.

(** A document whose two [<meta>] elements carry a date property name,
    one without [content] and one with an empty [content]: no date. *)
Lemma extract_date_from_meta_no_content_bare :
  @soup_meta _ Bare.web "<html></html>"
  = [ [("property", "article:published_time")];
      [("name", "date"); ("content", "")] ]
  ∧ (∀ tag, tag ∈ @soup_meta _ Bare.web "<html></html>" →
       tag_get tag "content" = None ∨ tag_get tag "content" = Some "")
  ∧ find_meta (@soup_meta _ Bare.web "<html></html>") "article:published_time"
    = Some [("property", "article:published_time")]
  ∧ find_meta (@soup_meta _ Bare.web "<html></html>") "date"
    = Some [("name", "date"); ("content", "")]
  ∧ extract_date_from_meta (ext := Bare.web) () "<html></html>" = None.
Proof.
  assert (Hempty : ∀ tag, tag ∈ @soup_meta _ Bare.web "<html></html>" →
     tag_get tag "content" = None ∨ tag_get tag "content" = Some "").
  { intros tag Hin. simpl in Hin. unfold Bare.soup in Hin.
    apply elem_of_cons in Hin as [->|Hin]; [by left|].
    apply elem_of_cons in Hin as [->|Hin]; [by right|].
    by apply elem_of_nil in Hin. }
  split; [reflexivity|]. split; [exact Hempty|].
  split; [reflexivity|]. split; [reflexivity|].
  exact (extract_date_from_meta_no_content (ext := Bare.web) ()
           "<html></html>" Hempty).
Defined.

(** ** More on the paginated search *)

Lemma item_hits_truthy (items : list (string * option string)) (h : hit) :
  h ∈ item_hits items → hit_url h ≠ "".
Proof.
  unfold item_hits. intros ([title url] & _ & Hsome)%list_elem_of_omap.
  simpl in Hsome. destruct url as [url|]; [|done].
  destruct url as [|c url]; [done|]. by injection Hsome as <-.
Qed.

Section MoreSearch.
Context {World : Type} {ext : Externals World}.

(** The loop only ever appends to the results it starts from. *)
Lemma bing_pages_extends (pages_left : nat) (query : string) (page : Z)
    (seen_urls : gset string) (all_results : list hit) (w : World) :
  all_results
    `prefix_of` (bing_pages pages_left query page seen_urls all_results w).1.
Proof.
  destruct (bing_pages_consumed pages_left query page seen_urls all_results w)
    as (k & _ & _ & _ & ->).
  rewrite fold_add_item. cbn [snd]. by eexists.
Qed.

Lemma bing_pages_step (n : nat) (query : string) (page : Z)
    (seen_urls : gset string) (all_results : list hit) (w : World) :
  bing_pages (S n) query page seen_urls all_results w
  = match bing_news_page query (page * 10) w with
    | (PageRaised, w1) | (PageItems [], w1) => (all_results, w1)
    | (PageItems items, w1) =>
        bing_pages n query (page + 1)
          (fold_left add_item items (seen_urls, all_results)).1
          (fold_left add_item items (seen_urls, all_results)).2
          (time_sleep w1)
    end.
Proof.
  cbn [bing_pages].
  destruct (bing_news_page query (page * 10) w) as [[|[|item items]] w1];
    [done | done |].
  by destruct (fold_left add_item (item :: items) (seen_urls, all_results)).
Qed.

(** One more allowed page only appends. *)
Lemma bing_pages_one_more (pages_left : nat) (query : string) (page : Z)
    (seen_urls : gset string) (all_results : list hit) (w : World) :
  (bing_pages pages_left query page seen_urls all_results w).1
    `prefix_of`
  (bing_pages (S pages_left) query page seen_urls all_results w).1.
Proof.
  revert page seen_urls all_results w.
  induction pages_left as [|n IH]; intros page seen_urls all_results w.
  - change (bing_pages 0 query page seen_urls all_results w).1
      with all_results.
    apply bing_pages_extends.
  - rewrite (bing_pages_step n), (bing_pages_step (S n)).
    destruct (bing_news_page query (page * 10) w) as [[|[|item items]] w1];
      [done | done |].
    apply IH.
Qed.

Lemma bing_pages_more (n m : nat) (query : string) (page : Z)
    (seen_urls : gset string) (all_results : list hit) (w : World) :
  (n ≤ m)%nat →
  (bing_pages n query page seen_urls all_results w).1
    `prefix_of` (bing_pages m query page seen_urls all_results w).1.
Proof.
  induction 1 as [|m _ IH]; [done|].
  etrans; [exact IH | apply bing_pages_one_more].
Qed.

(** X14. A larger page bound only appends hits: the result for a bound
    is a prefix of the result for any larger bound, from the same
    world. *)
Theorem search_urls_bing_news_monotone (query : string)
    (max_pages1 max_pages2 : Z) (w : World) :
  max_pages1 ≤ max_pages2 →
  (search_urls_bing_news query max_pages1 w).1
    `prefix_of` (search_urls_bing_news query max_pages2 w).1.
Proof.
  intros Hle. unfold search_urls_bing_news. apply bing_pages_more. lia.
Qed.

Lemma search_results_urls_truthy (query : string) (max_pages : Z)
    (w : World) :
  Forall (λ h, hit_url h ≠ "") (search_urls_bing_news query max_pages w).1.
Proof.
  unfold search_urls_bing_news.
  destruct (bing_pages_consumed (Z.to_nat max_pages) query 0 ∅ [] w)
    as (k & _ & _ & _ & ->).
  rewrite fold_add_item. cbn [snd app]. rewrite filter_unseen by done.
  apply Forall_forall. intros h Hin.
  eapply item_hits_truthy, elem_of_sublist;
    [exact Hin | apply first_occurrences_sublist].
Qed.

(** X15. No hit has an empty URL: a result element without [href], or
    with an empty one, never gets into the result. *)
Theorem search_urls_bing_news_urls_nonempty (query : string) (max_pages : Z)
    (w : World) :
  Forall (λ h, hit_url h ≠ "") (search_urls_bing_news query max_pages w).1.
Proof. apply search_results_urls_truthy. Qed.

(** X16. With a page bound of zero or less no page is requested: the
    result is empty and the world is as before. *)
Theorem search_urls_bing_news_no_pages (query : string) (max_pages : Z)
    (w : World) :
  max_pages ≤ 0 → search_urls_bing_news query max_pages w = ([], w).
Proof.
  intros Hle. unfold search_urls_bing_news.
  by replace (Z.to_nat max_pages) with 0%nat by lia.
Qed.

End MoreSearch.

Lemma search_urls_bing_news_monotone_acme :
  0 ≤ 5
  ∧ (search_urls_bing_news (ext := Toy.web) "Acme Corp" 0 ()).1
      `prefix_of` (search_urls_bing_news (ext := Toy.web) "Acme Corp" 5 ()).1.
Proof.
  assert (Hle : 0 ≤ 5) by lia.
  split; [exact Hle|].
  exact (search_urls_bing_news_monotone (ext := Toy.web) "Acme Corp" 0 5 ()
           Hle).
Defined.

Lemma search_urls_bing_news_no_pages_negative :
  -1 ≤ 0
  ∧ search_urls_bing_news (ext := Toy.web) "Acme Corp" (-1) () = ([], ()).
Proof.
  assert (Hle : -1 ≤ 0) by lia.
  split; [exact Hle|].
  exact (search_urls_bing_news_no_pages (ext := Toy.web) "Acme Corp" (-1) ()
           Hle).
Defined.

(** ** More on the tracker *)

Lemma date_le_trans (a b c : date) :
  date_le a b = true → date_le b c = true → date_le a c = true.
Proof. rewrite !date_le_lex. lia. Qed.

Lemma in_range_ordered (start_date end_date d : date) :
  in_range start_date end_date d = true → date_le start_date end_date = true.
Proof.
  unfold in_range. intros [H1 H2]%andb_true_iff. by eapply date_le_trans.
Qed.

Lemma digit_is_digit (n : Z) : Re.is_digit (digit n) = true.
Proof.
  unfold digit, Re.is_digit.
  pose proof (Z.mod_pos_bound n 10 ltac:(lia)).
  rewrite nat_ascii_embedding by lia.
  apply andb_true_iff. split; apply Nat.leb_le; lia.
Qed.

(** A printed date begins with a digit. *)
Lemma strftime_ymd_head (dt : datetime) :
  ∃ c rest, strftime_ymd dt = String c rest ∧ Re.is_digit c = true.
Proof.
  unfold strftime_ymd, year_digits.
  destruct (year dt <? 10); [|destruct (year dt <? 100);
    [|destruct (year dt <? 1000)]];
    cbv [four_digits two_digits]; rewrite string_app_cons;
    eexists _, _; (split; [reflexivity | apply digit_is_digit]).
Qed.

Lemma strftime_ymd_not_marker (dt : datetime) :
  strftime_ymd dt ≠ "" ∧ strftime_ymd dt ≠ "Unknown"
  ∧ strftime_ymd dt ≠ "Not Mentioned".
Proof.
  destruct (strftime_ymd_head dt) as (c & rest & -> & Hc).
  split_and!; [done | |]; intros [= -> _]; discriminate.
Qed.

Lemma published_shape (d : option datetime) :
  published d ≠ ""
  ∧ (published d = "Unknown" ∨ ∃ dt, published d = strftime_ymd dt).
Proof.
  destruct d as [dt|]; simpl; [|split; [done | by left]].
  split; [apply strftime_ymd_not_marker | right; eauto].
Qed.

Lemma categorize_article_in_taxonomy (text : option string) :
  categorize_article text ∈ CATEGORY_KEYWORDS.*1.
Proof.
  unfold categorize_article, categorize_with.
  destruct (category_loop _ _) as [c|] eqn:Hloop.
  - apply category_loop_Some in Hloop as (pre & kws & post & Heq & _).
    rewrite Heq, fmap_app, fmap_cons. apply elem_of_app. right. left.
  - vm_compute. set_solver.
Qed.

Lemma or_else_nonempty (x : option string) (y : string) :
  y ≠ "" → default "" (PyStr.or_else x (Some y)) ≠ "".
Proof.
  intros Hy. unfold PyStr.or_else.
  destruct x as [[|c x]|]; simpl; done.
Qed.

Section MoreTracker.
Context {World : Type} {ext : Externals World}.

Lemma extract_event_date_shape (w : World) (text : string) :
  extract_event_date w text ≠ ""
  ∧ (extract_event_date w text = "Not Mentioned"
     ∨ ∃ dt, extract_event_date w text = strftime_ymd dt).
Proof.
  unfold extract_event_date.
  destruct (search_dates w text) as [[|[phrase first] rest]|];
    [split; [done | by left] | | split; [done | by left]].
  split; [apply strftime_ymd_not_marker | right; eauto].
Qed.

(** X17. Every hit is fetched, whatever becomes of it: the world after
    one pass of the loop body is the world after the fetch, also for a
    hit that its URL date alone rejects. *)
Theorem track_hit_always_fetches (leaders all_keywords : list string)
    (start_date end_date : date) (st : tables) (result : hit) (w : World) :
  (track_hit leaders all_keywords start_date end_date st result w).2
  = (fetch_full_text_and_summary (hit_url result) w).2.
Proof. destruct st. by rewrite track_hit_cases. Qed.

(** X18. With the start of the range after its end, every hit that has
    a date is skipped: only undated hits give rows. *)
Theorem track_hit_inverted_range (leaders all_keywords : list string)
    (start_date end_date : date) (st : tables) (result : hit) (w : World) :
  date_le start_date end_date = false →
  is_Some (extract_date_from_url w (hit_url result))
  ∨ is_Some (fetch_full_text_and_summary (hit_url result) w).1.1.2 →
  (track_hit leaders all_keywords start_date end_date st result w).1 = st.
Proof.
  intros Hinv Hdated. destruct st as [final_data failed_articles].
  rewrite track_hit_cases. cbn [fst].
  assert (Hout : ∀ d, is_Some d → out_of_range start_date end_date d = true).
  { intros d [dt ->]. simpl. apply negb_true_iff, not_true_iff_false.
    intros Hin%in_range_ordered. congruence. }
  destruct Hdated as [Hd | Hd]; rewrite (Hout _ Hd); [done|].
  by rewrite orb_true_r.
Qed.

(** X19. When no keyword and no leader name is empty, a hit that passes
    the date filter and whose text is present and contains one of them
    (without regard to case) becomes a matched row. *)
Theorem track_hit_nonempty_names (keywords leaders : list string)
    (start_date end_date : date) (final_data : list tracked_article)
    (failed_articles : list failed_article) (result : hit) (w : World)
    (text : string) :
  let url := hit_url result in
  let fetched := fetch_full_text_and_summary url w in
  (∀ k, k ∈ keywords ++ leaders → k ≠ "") →
  out_of_range start_date end_date (extract_date_from_url w url) = false →
  out_of_range start_date end_date fetched.1.1.2 = false →
  fetched.1.1.1 = Some text →
  contains_keywords (Some text) (keywords ++ leaders) = true →
  (track_hit leaders (all_keywords_of keywords leaders) start_date end_date
             (final_data, failed_articles) result w).1
  = (final_data
       ++ [tracked_row fetched.2 leaders (hit_title result) url text
                       fetched.1.1.2 fetched.1.2],
     failed_articles).
Proof.
  intros url fetched Hnames Hurl Hfetch Htext Hcontains.
  rewrite track_hit_cases. cbn [fst].
  fold url. fold fetched. rewrite Hurl, Hfetch, Htext. cbn [orb].
  rewrite contains_keywords_all_keywords, Hcontains.
  destruct text as [|c text]; [|done].
  by rewrite contains_keywords_empty_text in Hcontains.
Qed.

(** One pass of the loop body keeps a property of the matched rows and
    one of the failed rows, when the rows this hit can give have them. *)
Lemma track_hit_rows_inv (P : tracked_article → Prop)
    (Q : failed_article → Prop) (leaders all_keywords : list string)
    (start_date end_date : date) (st : tables) (result : hit) (w : World) :
  (∀ w' text pub_date summary, PyStr.truthy text = true →
     P (tracked_row w' leaders (hit_title result) (hit_url result) text
                    pub_date summary)) →
  (∀ pub_date pub_date_from_url,
     Q (failed_row (hit_title result) (hit_url result) pub_date
                   pub_date_from_url)) →
  Forall P st.1 → Forall Q st.2 →
  Forall P (track_hit leaders all_keywords start_date end_date st result w).1.1
  ∧ Forall Q
      (track_hit leaders all_keywords start_date end_date st result w).1.2.
Proof.
  intros HP HQ Hfinal Hfailed. destruct st as [final_data failed_articles].
  rewrite track_hit_cases. cbn [fst snd] in *.
  destruct (_ || _); [done|].
  destruct (fetch_full_text_and_summary (hit_url result) w)
    as [[[full_text pub_date] summary] w1]. cbn [fst snd].
  destruct (PyStr.truthy_opt full_text) eqn:Htruthy; cbn [andb].
  - destruct (contains_keywords full_text all_keywords).
    + split; [|done]. apply Forall_app. split; [done|].
      apply Forall_singleton. destruct full_text as [text|]; [|done].
      by apply HP.
    + split; [done|]. apply Forall_app. split; [done|].
      by apply Forall_singleton.
  - split; [done|]. apply Forall_app. split; [done|].
    by apply Forall_singleton.
Qed.

Lemma track_hits_rows_inv (P : tracked_article → Prop)
    (Q : failed_article → Prop) (leaders all_keywords : list string)
    (start_date end_date : date) (search_results : list hit) (st : tables)
    (w : World) :
  Forall (λ result,
    (∀ w' text pub_date summary, PyStr.truthy text = true →
       P (tracked_row w' leaders (hit_title result) (hit_url result) text
                      pub_date summary))
    ∧ (∀ pub_date pub_date_from_url,
         Q (failed_row (hit_title result) (hit_url result) pub_date
                       pub_date_from_url))) search_results →
  Forall P st.1 → Forall Q st.2 →
  Forall P
    (track_hits leaders all_keywords start_date end_date search_results st w).1.1
  ∧ Forall Q
      (track_hits leaders all_keywords start_date end_date search_results st
                  w).1.2.
Proof.
  intros Hhits. revert st w.
  induction Hhits as [|result rest [HP HQ] _ IH]; intros st w Hfinal Hfailed.
  - done.
  - cbn [track_hits].
    pose proof (track_hit_rows_inv P Q leaders all_keywords start_date
                  end_date st result w HP HQ Hfinal Hfailed) as [H1 H2].
    destruct (track_hit leaders all_keywords start_date end_date st result w)
      as [st1 w1]. by apply IH.
Qed.

(** The same over a run, for properties that the rows of every hit with
    a non-empty URL have. *)
Lemma run_tracker_rows_inv (P : tracked_article → Prop)
    (Q : failed_article → Prop) (keywords leaders : list string)
    (start_date end_date : date) (w : World) :
  (∀ w' title url text pub_date summary,
     url ≠ "" → PyStr.truthy text = true →
     P (tracked_row w' leaders title url text pub_date summary)) →
  (∀ title url pub_date pub_date_from_url,
     url ≠ "" → Q (failed_row title url pub_date pub_date_from_url)) →
  Forall P (run_tracker keywords leaders start_date end_date w).1.1
  ∧ Forall Q (run_tracker keywords leaders start_date end_date w).1.2.
Proof.
  intros HP HQ. unfold run_tracker. cbn zeta.
  generalize (all_keywords_of keywords leaders). intros all_keywords.
  assert (Hgen : ∀ st w0, Forall P st.1 → Forall Q st.2 →
    Forall P (track_keywords leaders all_keywords start_date end_date
                keywords st w0).1.1
    ∧ Forall Q (track_keywords leaders all_keywords start_date end_date
                  keywords st w0).1.2).
  { induction keywords as [|keyword rest IH]; intros st w0 Hfinal Hfailed.
    - done.
    - cbn [track_keywords].
      pose proof (search_results_urls_truthy keyword 5 w0) as Hurls.
      destruct (search_urls_bing_news keyword 5 w0) as [search_results w1].
      cbn [fst] in Hurls.
      pose proof (track_hits_rows_inv P Q leaders all_keywords start_date
                    end_date search_results st w1) as Hinv.
      destruct (track_hits leaders all_keywords start_date end_date
                  search_results st w1) as [st1 w2].
      destruct Hinv as [H1 H2]; [|done|done|by apply IH].
      eapply Forall_impl; [exact Hurls|].
      intros result Hurl. split; intros; [by apply HP | by apply HQ]. }
  by apply Hgen.
Qed.

(** X20. Every matched row of a run has a category of the taxonomy, a
    non-empty URL, a non-empty "Leader Mentioned" and a non-empty
    summary; its published date is ["Unknown"] or the print of a date,
    its event date ["Not Mentioned"] or the print of a date, and neither
    is empty. *)
Theorem run_tracker_tracked_rows (keywords leaders : list string)
    (start_date end_date : date) (w : World) :
  Forall (λ row,
    Category row ∈ CATEGORY_KEYWORDS.*1
    ∧ URL row ≠ ""
    ∧ Leader_Mentioned row ≠ ""
    ∧ Summary row ≠ ""
    ∧ (Published_Date row ≠ ""
       ∧ (Published_Date row = "Unknown"
          ∨ ∃ dt, Published_Date row = strftime_ymd dt))
    ∧ (Event_Date row ≠ ""
       ∧ (Event_Date row = "Not Mentioned"
          ∨ ∃ dt, Event_Date row = strftime_ymd dt)))
    (run_tracker keywords leaders start_date end_date w).1.1.
Proof.
  eapply proj1, (run_tracker_rows_inv _ (λ _, True)); [|done].
  intros w' title url text pub_date summary Hurl Htext.
  unfold tracked_row. cbn [Category URL Leader_Mentioned Summary
                              Published_Date Event_Date].
  split_and!.
  - apply categorize_article_in_taxonomy.
  - done.
  - by apply or_else_nonempty.
  - rewrite Htext. apply or_else_nonempty.
    intros Hempty. apply (f_equal String.length) in Hempty.
    rewrite string_length_app in Hempty. simpl in Hempty. lia.
  - apply published_shape.
  - apply published_shape.
  - apply extract_event_date_shape.
  - apply extract_event_date_shape.
Qed.

(** X21. Every failed row of a run has a non-empty URL, and its
    published date is ["Unknown"] or the print of a date, never empty. *)
Theorem run_tracker_failed_rows (keywords leaders : list string)
    (start_date end_date : date) (w : World) :
  Forall (λ row,
    failed_URL row ≠ ""
    ∧ failed_Published_Date row ≠ ""
    ∧ (failed_Published_Date row = "Unknown"
       ∨ ∃ dt, failed_Published_Date row = strftime_ymd dt))
    (run_tracker keywords leaders start_date end_date w).1.2.
Proof.
  eapply proj2, (run_tracker_rows_inv (λ _, True)); [done|].
  intros title url pub_date pub_date_from_url Hurl.
  unfold failed_row. cbn [failed_URL failed_Published_Date].
  split; [done | apply published_shape].
Qed.

End MoreTracker.

Lemma track_hit_inverted_range_story :
  let start_date := mk_date 2024 12 31 in
  let end_date := mk_date 2024 1 1 in
  let result := mk_hit "Acme opens an office" Toy.story_url in
  date_le start_date end_date = false
  ∧ is_Some (extract_date_from_url (ext := Toy.web) () (hit_url result))
  ∧ (track_hit (ext := Toy.web) ["Jane Doe"] ["Acme Corp"; "Jane Doe"]
       start_date end_date ([], []) result ()).1 = ([], []).
Proof.
  intros start_date end_date result.
  assert (Hdated :
    is_Some (extract_date_from_url (ext := Toy.web) () (hit_url result)))
    by (vm_compute; eauto).
  split; [reflexivity|]. split; [exact Hdated|].
  exact (track_hit_inverted_range (ext := Toy.web) ["Jane Doe"]
           ["Acme Corp"; "Jane Doe"] start_date end_date ([], []) result ()
           eq_refl (or_introl Hdated)).
Defined.

Lemma track_hit_nonempty_names_story :
  let keywords := ["Acme Corp"] in
  let leaders := ["Jane Doe"] in
  let start_date := mk_date 2024 1 1 in
  let end_date := mk_date 2024 12 31 in
  let result := mk_hit "Acme opens an office" Toy.story_url in
  let text :=
    String.append "Acme Corp opened an office."
      (String "010" "Jane Doe was quoted.") in
  (∀ k, k ∈ keywords ++ leaders → k ≠ "")
  ∧ (fetch_full_text_and_summary (ext := Toy.web) Toy.story_url ()).1.1.1
    = Some text
  ∧ contains_keywords (Some text) (keywords ++ leaders) = true
  ∧ Category <$>
      (track_hit (ext := Toy.web) leaders (all_keywords_of keywords leaders)
         start_date end_date ([], []) result ()).1.1
    = ["Article Commentary"].
Proof.
  intros keywords leaders start_date end_date result text.
  assert (Hnames : ∀ k, k ∈ keywords ++ leaders → k ≠ "").
  { intros k Hk. simpl in Hk.
    repeat (apply elem_of_cons in Hk as [->|Hk]); [done | done |].
    by apply elem_of_nil in Hk. }
  split; [exact Hnames|]. split; [reflexivity|]. split; [reflexivity|].
  rewrite (track_hit_nonempty_names (ext := Toy.web) keywords leaders
             start_date end_date [] [] result () text Hnames
             eq_refl eq_refl eq_refl eq_refl).
  reflexivity.
Defined.

(** ** The form *)

Example parse_names_default :
  Form.parse_names "OMG India, Omnicom Media Group, OMD India"
  = ["OMG India"; "Omnicom Media Group"; "OMD India"]
  ∧ Form.parse_names " , Jane Doe ,, " = ["Jane Doe"]
  ∧ Form.parse_names "" = [].
Proof. by vm_compute. Qed.

Lemma contains_char_cons (c a : ascii) (s : string) :
  PyStr.contains (String c "") (String a s)
  = (Ascii.eqb c a || PyStr.contains (String c "") s)%bool.
Proof.
  cbn [PyStr.contains]. f_equal. simpl.
  destruct (ascii_dec c a) as [->|Hne].
  - rewrite Ascii.eqb_refl. by destruct s.
  - symmetry. by apply Ascii.eqb_neq.
Qed.

Lemma contains_char_app (c : ascii) (a b : string) :
  PyStr.contains (String c "") (a +:+ b)
  = (PyStr.contains (String c "") a || PyStr.contains (String c "") b)%bool.
Proof.
  induction a as [|x a IH].
  - rewrite string_app_nil_l. done.
  - rewrite string_app_cons, !contains_char_cons, IH. by rewrite orb_assoc.
Qed.

Lemma all_space_no_comma (s : string) :
  string_forallb PyStr.is_space s = true → PyStr.contains "," s = false.
Proof.
  induction s as [|c s IH]; [done|]. simpl string_forallb.
  intros [Hc Hs]%andb_true_iff. rewrite contains_char_cons, (IH Hs).
  rewrite orb_false_r. apply Ascii.eqb_neq. intros <-. discriminate.
Qed.

(** *** Stripping *)

Lemma lstrip_suffix (s : string) : ∃ pre, s = pre +:+ PyStr.lstrip s.
Proof.
  induction s as [|c s [pre IH]]; simpl; [by exists ""|].
  destruct (PyStr.is_space c).
  - exists (String c pre). by rewrite string_app_cons, <- IH.
  - by exists "".
Qed.

Lemma rstrip_prefix (s : string) : ∃ post, s = PyStr.rstrip s +:+ post.
Proof.
  induction s as [|c s [post IH]]; simpl; [by exists ""|].
  destruct (PyStr.rstrip s) as [|c' r] eqn:Hr.
  - destruct (PyStr.is_space c).
    + by exists (String c s).
    + exists s. done.
  - exists post. by rewrite string_app_cons, <- IH.
Qed.

Lemma strip_within (s : string) : PyStr.contains (PyStr.strip s) s = true.
Proof.
  apply contains_spec. unfold PyStr.strip.
  destruct (lstrip_suffix s) as [pre Hpre].
  destruct (rstrip_prefix (PyStr.lstrip s)) as [post Hpost].
  exists pre, post. by rewrite <- Hpost.
Qed.

Lemma lstrip_clean (s : string) : starts_clean (PyStr.lstrip s).
Proof.
  induction s as [|c s IH]; simpl; [done|].
  by destruct (PyStr.is_space c) eqn:Hc.
Qed.

Lemma lstrip_id (s : string) : starts_clean s → PyStr.lstrip s = s.
Proof. destruct s as [|c s]; simpl; [done|]. by intros ->. Qed.

Lemma rstrip_clean (s : string) : starts_clean s → starts_clean (PyStr.rstrip s).
Proof.
  destruct s as [|c s]; simpl; [done|]. intros Hc.
  destruct (PyStr.rstrip s); [by rewrite Hc | done].
Qed.

Lemma rstrip_cons (c : ascii) (s : string) :
  PyStr.rstrip (String c s)
  = match PyStr.rstrip s with
    | EmptyString => if PyStr.is_space c then "" else String c ""
    | r => String c r
    end.
Proof. reflexivity. Qed.

Lemma rstrip_idempotent (s : string) :
  PyStr.rstrip (PyStr.rstrip s) = PyStr.rstrip s.
Proof.
  induction s as [|c s IH]; [done|]. rewrite rstrip_cons.
  destruct (PyStr.rstrip s) as [|c' r] eqn:Hr.
  - destruct (PyStr.is_space c) eqn:Hc; [done|].
    rewrite rstrip_cons. simpl. by rewrite Hc.
  - rewrite rstrip_cons, IH. done.
Qed.

Lemma strip_idempotent (s : string) :
  PyStr.strip (PyStr.strip s) = PyStr.strip s.
Proof.
  unfold PyStr.strip.
  rewrite (lstrip_id (PyStr.rstrip _)) by apply rstrip_clean, lstrip_clean.
  apply rstrip_idempotent.
Qed.

Lemma lstrip_empty (s : string) :
  PyStr.lstrip s = "" ↔ string_forallb PyStr.is_space s = true.
Proof.
  induction s as [|c s IH]; simpl; [done|].
  destruct (PyStr.is_space c); simpl; [done|]. split; discriminate.
Qed.

Lemma rstrip_empty (s : string) :
  PyStr.rstrip s = "" ↔ string_forallb PyStr.is_space s = true.
Proof.
  induction s as [|c s IH]; simpl; [done|].
  destruct (PyStr.rstrip s) as [|c' r] eqn:Hr.
  - destruct (PyStr.is_space c); simpl.
    + by rewrite <- IH.
    + split; discriminate.
  - split; [discriminate|]. intros [_ Hs%IH]%andb_true_iff. discriminate.
Qed.

Lemma strip_empty (s : string) :
  PyStr.strip s = "" ↔ string_forallb PyStr.is_space s = true.
Proof.
  unfold PyStr.strip. rewrite rstrip_empty. split.
  - intros Hall. apply lstrip_empty.
    pose proof (lstrip_clean s) as Hclean.
    destruct (PyStr.lstrip s) as [|c t]; [done|].
    simpl in Hall, Hclean. by rewrite Hclean in Hall.
  - intros Hall%lstrip_empty. by rewrite Hall.
Qed.

Lemma clean_name_fixed (k : string) :
  clean_name k → PyStr.lstrip k = k ∧ PyStr.rstrip k = k.
Proof.
  intros (_ & Hstrip & _). unfold PyStr.strip in Hstrip.
  assert (Hl : PyStr.lstrip k = k).
  { apply lstrip_id. rewrite <- Hstrip. apply rstrip_clean, lstrip_clean. }
  split; [done|]. by rewrite Hl in Hstrip.
Qed.

(** *** Cutting at commas *)

Lemma split_comma_cons (text : string) :
  ∃ piece pieces, Form.split_comma text = piece :: pieces.
Proof.
  destruct text as [|c rest]; simpl; [eauto|].
  destruct (Ascii.eqb c ","); [eauto|].
  destruct (Form.split_comma rest); eauto.
Qed.

Lemma split_comma_no_comma (text : string) :
  Forall (λ piece, PyStr.contains "," piece = false) (Form.split_comma text).
Proof.
  induction text as [|c rest IH]; simpl; [by repeat constructor|].
  destruct (Ascii.eqb c ",") eqn:Hc; [by constructor|].
  destruct (split_comma_cons rest) as (piece & pieces & Hsplit).
  rewrite Hsplit in IH |- *.
  apply Forall_cons in IH as [Hpiece Hpieces]. constructor; [|done].
  rewrite contains_char_cons, Hpiece, orb_false_r.
  by rewrite Ascii.eqb_sym.
Qed.

Lemma split_comma_piece (piece rest : string) :
  PyStr.contains "," piece = false →
  Form.split_comma (piece +:+ String "," rest)
  = piece :: Form.split_comma rest.
Proof.
  induction piece as [|c piece IH]; intros Hfree.
  - by rewrite string_app_nil_l.
  - rewrite contains_char_cons in Hfree.
    apply orb_false_iff in Hfree as [Hc Hpiece].
    rewrite string_app_cons. cbn [Form.split_comma].
    rewrite Ascii.eqb_sym, Hc. by rewrite IH.
Qed.

Lemma split_comma_single (piece : string) :
  PyStr.contains "," piece = false → Form.split_comma piece = [piece].
Proof.
  induction piece as [|c piece IH]; intros Hfree; [done|].
  rewrite contains_char_cons in Hfree.
  apply orb_false_iff in Hfree as [Hc Hpiece].
  cbn [Form.split_comma]. rewrite Ascii.eqb_sym, Hc. by rewrite IH.
Qed.

Lemma split_comma_blank (text : string) :
  Forall (λ piece, string_forallb PyStr.is_space piece = true)
         (Form.split_comma text)
  ↔ string_forallb (λ c, Ascii.eqb c "," || PyStr.is_space c) text = true.
Proof.
  induction text as [|c rest IH]; simpl.
  - split; [done | by repeat constructor].
  - destruct (Ascii.eqb c ",") eqn:Hc; simpl.
    + rewrite Forall_cons, IH. simpl. tauto.
    + destruct (split_comma_cons rest) as (piece & pieces & Hsplit).
      rewrite Hsplit in IH |- *. rewrite Forall_cons in IH |- *.
      simpl. rewrite !andb_true_iff, <- IH. tauto.
Qed.

(** X22. Every name the form hands on is non-empty, has no white space
    at either end and holds no comma. *)
Theorem parse_names_clean (text : string) :
  Forall clean_name (Form.parse_names text).
Proof.
  unfold Form.parse_names. apply Forall_forall. intros k Hk.
  apply list_elem_of_In, filter_In in Hk as [Hin Htruthy].
  apply list_elem_of_In, list_elem_of_fmap in Hin as (piece & -> & Hpiece).
  split_and!.
  - by destruct (PyStr.strip piece).
  - apply strip_idempotent.
  - pose proof (split_comma_no_comma text) as Hfree.
    rewrite Forall_forall in Hfree. specialize (Hfree _ Hpiece).
    apply not_true_iff_false. intros Hcomma.
    pose proof (contains_trans _ _ _ Hcomma (strip_within piece)). congruence.
Qed.

Lemma parse_names_nil_iff (text : string) :
  Form.parse_names text = []
  ↔ string_forallb (λ c, Ascii.eqb c "," || PyStr.is_space c) text = true.
Proof.
  rewrite <- split_comma_blank. unfold Form.parse_names.
  generalize (Form.split_comma text). intros pieces.
  induction pieces as [|piece pieces IH]; simpl.
  - split; [constructor | done].
  - rewrite Forall_cons, <- IH, <- strip_empty.
    destruct (PyStr.strip piece); simpl; [tauto|].
    split; [discriminate | by intros [? _]].
Qed.

(** X23. The form has no name to hand on exactly when the text holds
    nothing but commas and white space. *)
Theorem parse_names_nil (text : string) :
  Form.parse_names text = []
  ↔ string_forallb (λ c, Ascii.eqb c "," || PyStr.is_space c) text = true.
Proof. apply parse_names_nil_iff. Qed.

Lemma lstrip_blank_app (pre s : string) :
  string_forallb PyStr.is_space pre = true →
  PyStr.lstrip (pre +:+ s) = PyStr.lstrip s.
Proof.
  induction pre as [|c pre IH]; [done|]. simpl string_forallb.
  intros [Hc Hpre]%andb_true_iff.
  rewrite string_app_cons. cbn [PyStr.lstrip]. rewrite Hc. by apply IH.
Qed.

Lemma parse_names_join (pre : string) (names : list string) :
  string_forallb PyStr.is_space pre = true →
  Forall clean_name names →
  Form.parse_names (pre +:+ PyStr.join ", " names) = names.
Proof.
  intros Hpre Hnames. revert pre Hpre.
  induction Hnames as [|k names Hk Hnames IH]; intros pre Hpre.
  - simpl. rewrite string_app_nil_r.
    apply parse_names_nil_iff, split_comma_blank.
    rewrite split_comma_single by (by apply all_space_no_comma).
    by constructor.
  - pose proof (clean_name_fixed k Hk) as [Hl Hr].
    destruct Hk as (Hne & Hstrip & Hfree).
    assert (Hhead : PyStr.contains "," (pre +:+ k) = false).
    { by rewrite contains_char_app, (all_space_no_comma pre Hpre), Hfree. }
    assert (Hk : PyStr.strip (pre +:+ k) = k).
    { unfold PyStr.strip. by rewrite lstrip_blank_app, Hl, Hr. }
    destruct names as [|k' names].
    + cbn [PyStr.join]. unfold Form.parse_names.
      rewrite split_comma_single by done. simpl. rewrite Hk.
      by destruct k.
    + change (PyStr.join ", " (k :: k' :: names))
        with (k +:+ ", " +:+ PyStr.join ", " (k' :: names)).
      change (", " +:+ PyStr.join ", " (k' :: names))
        with (String "," (" " +:+ PyStr.join ", " (k' :: names))).
      rewrite <- string_app_assoc. unfold Form.parse_names.
      rewrite split_comma_piece by done. rewrite fmap_cons. simpl filter.
      rewrite Hk. destruct k as [|c k]; [done|]. simpl. f_equal.
      by apply (IH " ").
Qed.

(** X24. Names that are clean come back from the form as they were
    written, in order, when they are entered separated by a comma and a
    blank. *)
Theorem parse_names_of_join (names : list string) :
  Forall clean_name names →
  Form.parse_names (PyStr.join ", " names) = names.
Proof. intros Hnames. by apply (parse_names_join "" names). Qed.

Lemma parse_names_of_join_leaders :
  Forall clean_name ["Priti Murthy"; "Kartik Sharma"]
  ∧ Form.parse_names (PyStr.join ", " ["Priti Murthy"; "Kartik Sharma"])
    = ["Priti Murthy"; "Kartik Sharma"].
Proof.
  assert (Hclean : Forall clean_name ["Priti Murthy"; "Kartik Sharma"]).
  { repeat constructor; done. }
  split; [exact Hclean|].
  exact (parse_names_of_join ["Priti Murthy"; "Kartik Sharma"] Hclean).
Defined.

Section MoreForm.
Context {World : Type} {ext : Externals World}.

(** X25. A click with a keyword box that holds only commas and white
    space ends in the keyword warning and touches nothing outside; with
    any other content of the box the keyword warning does not appear. *)
Theorem search_clicked_blank_keywords (keywords_input leaders_input : string)
    (start_date end_date : option date) (w : World) :
  let blank :=
    string_forallb (λ c, Ascii.eqb c "," || PyStr.is_space c) keywords_input in
  let clicked :=
    search_clicked keywords_input leaders_input start_date end_date w in
  (blank = true → clicked = (Form.WarnKeywords, w))
  ∧ (blank = false → clicked.1 ≠ Form.WarnKeywords).
Proof.
  intros blank clicked. unfold clicked, search_clicked, blank.
  pose proof (parse_names_nil_iff keywords_input) as Hnil.
  destruct (Form.parse_names keywords_input) as [|k ks].
  - split; [done|]. intros Hblank. rewrite (proj1 Hnil eq_refl) in Hblank.
    discriminate.
  - split.
    + intros Hblank. by apply Hnil in Hblank.
    + intros _. destruct start_date, end_date; try done.
      by destruct (run_tracker _ _ _ _ _).
Qed.

End MoreForm.

(** ** Texts and printed dates *)

Lemma contains_refl (s : string) : PyStr.contains s s = true.
Proof. apply contains_spec. exists "", "". by rewrite string_app_nil_r. Qed.

Lemma join_cons2 (sep p q : string) (rest : list string) :
  PyStr.join sep (p :: q :: rest) = p +:+ sep +:+ PyStr.join sep (q :: rest).
Proof. reflexivity. Qed.

Lemma join_contains (sep : string) (parts : list string) (p : string) :
  p ∈ parts → PyStr.contains p (PyStr.join sep parts) = true.
Proof.
  induction parts as [|q [|r rest] IH].
  - by intros ?%elem_of_nil.
  - intros ->%list_elem_of_singleton. apply contains_refl.
  - rewrite join_cons2. intros [->|Hin]%elem_of_cons.
    + apply contains_spec. by exists "", (sep +:+ PyStr.join sep (r :: rest)).
    + apply IH, contains_spec in Hin as (a & b & ->).
      apply contains_spec. exists (q +:+ sep +:+ a), b.
      by rewrite !string_app_assoc.
Qed.

Lemma app_empty (a b : string) : a +:+ b = "" → a = "".
Proof. destruct a; [done | discriminate]. Qed.

Lemma join_empty (sep : string) (parts : list string) :
  Forall (λ p, p ≠ "") parts → PyStr.join sep parts = "" → parts = [].
Proof.
  destruct 1 as [|p [|q rest] Hp _]; [done | |].
  - simpl. by intros ->.
  - rewrite join_cons2. by intros ->%app_empty.
Qed.

Section FallbackText.
Context {World : Type} {ext : Externals World}.

(** X26. The text of the fallback path is empty exactly when the page
    has no paragraph with text, and every paragraph of the page occurs
    in it. *)
Theorem fallback_text_paragraphs (html : string) :
  (fallback_text html = "" ↔ Forall (λ p, p = "") (soup_paragraphs html))
  ∧ Forall (λ p, PyStr.contains p (fallback_text html) = true)
           (soup_paragraphs html).
Proof.
  unfold fallback_text. generalize (soup_paragraphs html). intros paragraphs.
  assert (Hfiltered : Forall (λ p, p ≠ "") (List.filter PyStr.truthy paragraphs)).
  { apply Forall_forall. intros p [_ Hp]%list_elem_of_In%filter_In.
    by destruct p. }
  split; [split|].
  - intros Hempty%join_empty; [|done].
    apply Forall_forall. intros p Hp. destruct p as [|c p]; [done|].
    assert (Hin : String c p ∈ List.filter PyStr.truthy paragraphs).
    { apply list_elem_of_In, filter_In. by rewrite <- list_elem_of_In. }
    rewrite Hempty in Hin. by apply elem_of_nil in Hin.
  - intros Hall. clear Hfiltered.
    assert (List.filter PyStr.truthy paragraphs = []) as ->; [|done].
    induction Hall as [|p rest -> _ IH]; [done | exact IH].
  - apply Forall_forall. intros p Hp. destruct p as [|c p].
    + apply contains_empty.
    + apply join_contains, list_elem_of_In, filter_In.
      by rewrite <- list_elem_of_In.
Qed.

(** X27. The two markers are never the print of a date: a published
    date reads ["Unknown"] only when there is no date, and an event date
    reads ["Not Mentioned"] only when the phrase search finds nothing. *)
Theorem markers_are_not_dates (w : World) (d : option datetime)
    (text : string) :
  (published d = "Unknown" ↔ d = None)
  ∧ (extract_event_date w text = "Not Mentioned"
     ↔ search_dates w text = None ∨ search_dates w text = Some []).
Proof.
  split.
  - destruct d as [dt|]; simpl; [|done]. split; [|done].
    intros Heq. by apply strftime_ymd_not_marker in Heq.
  - unfold extract_event_date.
    destruct (search_dates w text) as [[|[phrase first] rest]|].
    + split; [by right | done].
    + split.
      * intros Heq. by apply strftime_ymd_not_marker in Heq.
      * by intros [?|?].
    + split; [by left | done].
Qed.

End FallbackText.

Lemma digit_inj (a b : Z) : digit a = digit b → a mod 10 = b mod 10.
Proof.
  unfold digit. intros Heq%(f_equal nat_of_ascii).
  pose proof (Z.mod_pos_bound a 10 ltac:(lia)).
  pose proof (Z.mod_pos_bound b 10 ltac:(lia)).
  rewrite !nat_ascii_embedding in Heq by lia. lia.
Qed.

Lemma digit_not_dash (n : Z) : digit n ≠ "-"%char.
Proof.
  intros Heq. pose proof (digit_is_digit n) as Hd. by rewrite Heq in Hd.
Qed.

(** X28. Printing keeps the calendar date: two values with years in
    0..9999 and months and days in 0..99 that print alike have the same
    year, month and day. *)
Theorem strftime_ymd_injective (d1 d2 : datetime) :
  0 ≤ year d1 < 10000 → 0 ≤ year d2 < 10000 →
  0 ≤ month d1 < 100 → 0 ≤ month d2 < 100 →
  0 ≤ day d1 < 100 → 0 ≤ day d2 < 100 →
  strftime_ymd d1 = strftime_ymd d2 → date_of d1 = date_of d2.
Proof.
  intros Hy1 Hy2 Hm1 Hm2 Hd1 Hd2.
  unfold strftime_ymd, year_digits, date_of.
  generalize dependent (day d2). generalize dependent (day d1).
  generalize dependent (month d2). generalize dependent (month d1).
  generalize dependent (year d2). generalize dependent (year d1).
  intros y1 Hy1 y2 Hy2 m1 Hm1 m2 Hm2 a1 Ha1 a2 Ha2.
  destruct (Z.ltb_spec y1 10), (Z.ltb_spec y1 100), (Z.ltb_spec y1 1000),
    (Z.ltb_spec y2 10), (Z.ltb_spec y2 100), (Z.ltb_spec y2 1000);
    try lia;
    cbv [four_digits two_digits String.append]; intros Heq;
    repeat match goal with
    | H : String ?a ?s = String ?b ?t |- _ =>
        assert (a = b) by congruence; assert (s = t) by congruence; clear H
    end;
    try (exfalso;
         match goal with
         | H : digit _ = "-"%char |- _ => exact (digit_not_dash _ H)
         | H : "-"%char = digit _ |- _ => exact (digit_not_dash _ (eq_sym H))
         end);
    repeat match goal with
    | H : digit _ = digit _ |- _ => apply digit_inj in H
    end;
    f_equal; Z.to_euclidean_division_equations; lia.
Qed.

Lemma strftime_ymd_injective_same_day :
  let morning := mk_datetime 2024 3 1 9 0 0 None in
  let evening := mk_datetime 2024 3 1 21 30 0 (Some 330) in
  strftime_ymd morning = strftime_ymd evening
  ∧ date_of morning = date_of evening.
Proof.
  intros morning evening. split; [reflexivity|].
  apply (strftime_ymd_injective morning evening); simpl; try lia.
  reflexivity.
Defined.

(** ** Rows *)

Section Rows.
Context {World : Type} {ext : Externals World}.

(** X29. The "Leader Mentioned" field of a matched row reads
    ["Not Mentioned"] when no leader name occurs in the text; when a
    non-empty leader name occurs, the field is the list of the names
    that occur, joined by a comma and a blank, and holds each of them. *)
Theorem tracked_row_leaders (w : World) (leaders : list string)
    (title url text : string) (pub_date : option datetime)
    (summary : option string) :
  let row := tracked_row w leaders title url text pub_date summary in
  let mentioned :=
    List.filter (λ l, PyStr.contains (PyStr.lower l) (PyStr.lower text))
                leaders in
  (mentioned = [] → Leader_Mentioned row = "Not Mentioned")
  ∧ ((∃ l, l ∈ mentioned ∧ l ≠ "") →
     Leader_Mentioned row = PyStr.join ", " mentioned
     ∧ Forall (λ l, PyStr.contains l (Leader_Mentioned row) = true) mentioned).
Proof.
  intros row mentioned. unfold row, tracked_row. cbn [Leader_Mentioned].
  fold mentioned. split.
  - by intros ->.
  - intros (l & Hin & Hl).
    assert (Hjoin : PyStr.join ", " mentioned ≠ "").
    { intros Hempty. pose proof (join_contains ", " _ _ Hin) as Hc.
      rewrite Hempty in Hc. by destruct l. }
    assert (Hfield :
      default "" (PyStr.or_else (Some (PyStr.join ", " mentioned))
                                (Some "Not Mentioned"))
      = PyStr.join ", " mentioned).
    { by destruct (PyStr.join ", " mentioned). }
    rewrite Hfield. split; [done|].
    apply Forall_forall. intros l' Hl'. by apply join_contains.
Qed.

Lemma track_hit_appends (leaders all_keywords : list string)
    (start_date end_date : date) (st : tables) (result : hit) (w : World) :
  st.1 `prefix_of`
    (track_hit leaders all_keywords start_date end_date st result w).1.1
  ∧ st.2 `prefix_of`
      (track_hit leaders all_keywords start_date end_date st result w).1.2.
Proof.
  destruct st as [final_data failed_articles]. rewrite track_hit_cases.
  cbn [fst snd]. destruct (_ || _); [done|].
  destruct (_ && _); cbn [fst snd]; split; try done; by eexists.
Qed.

Lemma track_hits_appends (leaders all_keywords : list string)
    (start_date end_date : date) (search_results : list hit) (st : tables)
    (w : World) :
  st.1 `prefix_of`
    (track_hits leaders all_keywords start_date end_date search_results st
                w).1.1
  ∧ st.2 `prefix_of`
      (track_hits leaders all_keywords start_date end_date search_results st
                  w).1.2.
Proof.
  revert st w. induction search_results as [|result rest IH]; intros st w.
  - done.
  - cbn [track_hits].
    pose proof (track_hit_appends leaders all_keywords start_date end_date
                  st result w) as [H1 H2].
    destruct (track_hit leaders all_keywords start_date end_date st result w)
      as [st1 w1]. destruct (IH st1 w1) as [H3 H4].
    split; etrans; done.
Qed.

(** X30. The two tables only grow, at their ends: whatever was
    recorded before a keyword is worked through is a prefix of what is
    recorded after, so no row is dropped or moved. *)
Theorem track_keywords_only_appends (leaders all_keywords : list string)
    (start_date end_date : date) (keywords : list string) (st : tables)
    (w : World) :
  st.1 `prefix_of`
    (track_keywords leaders all_keywords start_date end_date keywords st
                    w).1.1
  ∧ st.2 `prefix_of`
      (track_keywords leaders all_keywords start_date end_date keywords st
                      w).1.2.
Proof.
  revert st w. induction keywords as [|keyword rest IH]; intros st w.
  - done.
  - cbn [track_keywords].
    destruct (search_urls_bing_news keyword 5 w) as [search_results w1].
    pose proof (track_hits_appends leaders all_keywords start_date end_date
                  search_results st w1) as [H1 H2].
    destruct (track_hits leaders all_keywords start_date end_date
                search_results st w1) as [st1 w2].
    destruct (IH st1 w2) as [H3 H4].
    split; etrans; done.
Qed.

End Rows.
